(** * Port agent packet codec: [port_agent/packet.py]

    A shallow embedding of the packet module and the properties of its
    header codec, checksum, packet builder and two-phase receiver.

    Conventions of the embedding.
    - A [bytearray] is a list of integers; the Python type keeps every
      item in [0, 256), which is the predicate [is_bytearray].
    - A Python [float] is an IEEE 754 binary64 datum.  It is represented
      by its 64-bit pattern, an integer in [0, 2^64); the [d] format of
      [struct] writes exactly these eight bytes, most significant first.
    - Exceptions are values of [exception]; a call that can raise returns
      a [result].
    - [pack_into] writes into the buffer it is given; the model returns the
      new contents of that same buffer. *)

From Stdlib Require Import ZArith Lia.
From stdpp Require Import base list numbers.

Local Open Scope Z_scope.

Module Packet.

(** ** Exceptions and results *)

Inductive exception : Type :=
  | HeaderSizeError (n : Z)
  | SyncError (sync : Z * Z * Z)
  | ChecksumError (rxchecksum : Z)
  | StructError.

Inductive result (A : Type) : Type :=
  | Ok (a : A)
  | Raise (e : exception).

Arguments Ok {A} a.
Arguments Raise {A} e.

#[global] Instance result_ret : MRet result := fun A a => Ok a.

#[global] Instance result_bind : MBind result := fun A B k r =>
  match r with
  | Ok a => k a
  | Raise e => Raise e
  end.

(** ** Bytes *)

Abbreviation bytearray := (list Z).

Definition is_byte (b : Z) : Prop := 0 <= b < 256.

Definition is_bytearray (buf : bytearray) : Prop := Forall is_byte buf.

(** A binary64 value, as its bit pattern. *)
Definition is_float64 (t : Z) : Prop := 0 <= t < 2 ^ 64.

(** [bytearray(n)]: [n] zero bytes. *)
Definition zeros (n : Z) : bytearray := replicate (Z.to_nat n) 0.

(** ** The [struct] layout "!BBBBHHd" *)

(** Big-endian encoding of [v] on [n] bytes, and its inverse. *)
Fixpoint be_bytes (n : nat) (v : Z) : list Z :=
  match n with
  | O => []
  | S n' => be_bytes n' (v / 256) ++ [v mod 256]
  end.

Definition be_int (l : list Z) : Z :=
  fold_left (fun acc b => acc * 256 + b) l 0.

Definition in_ubyte (v : Z) : bool := (0 <=? v) && (v <=? 255).
Definition in_ushort (v : Z) : bool := (0 <=? v) && (v <=? 65535).
Definition in_double (v : Z) : bool := (0 <=? v) && (v <? 2 ^ 64).

(** [header_struct.pack_into(buf, 0, ...)]: [struct.error] when the buffer
    is shorter than the layout or an integer field is outside its format's
    range; otherwise the first sixteen bytes of [buf] are overwritten.
    The timestamp is a float, given by its bit pattern: [in_double] is that
    typing, not an error path of [struct], and an integer that is no
    binary64 pattern stands for no argument the function is given. *)
Definition pack_into (buf : bytearray)
    (sync1 sync2 sync3 msgtype pktsize checksum timestamp : Z)
    : result bytearray :=
  if (length buf <? 16)%nat then Raise StructError
  else if in_ubyte sync1 && in_ubyte sync2 && in_ubyte sync3
          && in_ubyte msgtype && in_ushort pktsize && in_ushort checksum
          && in_double timestamp
  then Ok ([sync1; sync2; sync3; msgtype]
           ++ be_bytes 2 pktsize ++ be_bytes 2 checksum
           ++ be_bytes 8 timestamp ++ drop 16 buf)
  else Raise StructError.

(** [header_struct.unpack_from(buffer(buf))]: reads the first sixteen bytes. *)
Definition unpack_from (buf : bytearray)
    : result (Z * Z * Z * Z * Z * Z * Z) :=
  match buf with
  | s1 :: s2 :: s3 :: mt :: p1 :: p2 :: c1 :: c2
    :: t1 :: t2 :: t3 :: t4 :: t5 :: t6 :: t7 :: t8 :: _ =>
      Ok (s1, s2, s3, mt, be_int [p1; p2], be_int [c1; c2],
          be_int [t1; t2; t3; t4; t5; t6; t7; t8])
  | _ => Raise StructError
  end.

(** ** Module constants *)

Definition SYNC : Z * Z * Z := (0xA3, 0x9D, 0x7A).
Definition HEADER_SIZE : Z := 16.
Definition MAX_PACKET_SIZE : Z := 2 ^ 16.

Module PacketType.
Definition UNKNOWN : Z := 0.
Definition DATA_FROM_INSTRUMENT : Z := 1.
Definition DATA_FROM_DRIVER : Z := 2.
Definition PORT_AGENT_COMMAND : Z := 3.
Definition PORT_AGENT_STATUS : Z := 4.
Definition PORT_AGENT_FAULT : Z := 5.
Definition INSTRUMENT_COMMAND : Z := 6.
Definition PORT_AGENT_HEARTBEAT : Z := 7.
Definition PICKLED_DATA_FROM_INSTRUMENT : Z := 8.
Definition PICKLED_DATA_FROM_DRIVER : Z := 9.
End PacketType.

(** ** Module functions *)

(** [n = seed; for datum in data: n ^= datum; return n] *)
Definition calculateChecksum (data : list Z) (seed : Z) : Z :=
  fold_left Z.lxor data seed.

Definition pack_header (buf : bytearray)
    (msgtype pktsize checksum timestamp : Z) : result bytearray :=
  let '(sync1, sync2, sync3) := SYNC in
  pack_into buf sync1 sync2 sync3 msgtype pktsize checksum timestamp.

Definition unpack_header (buf : bytearray)
    : result ((Z * Z * Z) * Z * Z * Z * Z) :=
  '(sync1, sync2, sync3, msgtype, pktsize, checksum, timestamp)
     ← unpack_from buf;
  Ok ((sync1, sync2, sync3), msgtype, pktsize, checksum, timestamp).

Definition makepacket (msgtype timestamp : Z) (data : bytearray)
    : result bytearray :=
  let pktsize := HEADER_SIZE + Z.of_nat (length data) in
  let pkt := zeros pktsize in
  pkt ← pack_header pkt msgtype pktsize 0 timestamp;
  let pkt := take (Z.to_nat HEADER_SIZE) pkt ++ data in
  let checksum := calculateChecksum pkt 0 in
  pkt ← pack_header pkt msgtype pktsize checksum timestamp;
  Ok pkt.

(** ** class ReceivedPacket *)

(** The attributes of an instance.  [data] is [None] until the attribute
    has been assigned. *)
Record ReceivedPacket : Type := mkReceivedPacket {
  header : bytearray;
  msgtype : Z;
  pktsize : Z;
  checksum : Z;
  timestamp : Z;
  datasize : Z;
  data : option bytearray
}.

Definition set_data (self : ReceivedPacket) (d : bytearray) : ReceivedPacket :=
  mkReceivedPacket (header self) (msgtype self) (pktsize self)
    (checksum self) (timestamp self) (datasize self) (Some d).

Definition sync_eqb (a b : Z * Z * Z) : bool :=
  let '(a1, a2, a3) := a in
  let '(b1, b2, b3) := b in
  (a1 =? b1) && (a2 =? b2) && (a3 =? b3).

(** [ReceivedPacket(header)].  An instance exists only when [__init__]
    returns; its [header] attribute is the caller's buffer, rewritten in
    place by the final [pack_header]. *)
Definition ReceivedPacket_init (hdr : bytearray) : result ReceivedPacket :=
  if negb (Z.of_nat (length hdr) =? HEADER_SIZE)
  then Raise (HeaderSizeError (Z.of_nat (length hdr)))
  else
    '(sync, msgtype, pktsize, checksum, timestamp) ← unpack_header hdr;
    let datasize := pktsize - HEADER_SIZE in
    if negb (sync_eqb sync SYNC) then Raise (SyncError sync)
    else
      hdr' ← pack_header hdr msgtype pktsize 0 timestamp;
      Ok (mkReceivedPacket hdr' msgtype pktsize checksum timestamp
            datasize None).

(** [self.validate(data)]: the instance after the call, and whether the call
    returned or raised. *)
Definition validate (self : ReceivedPacket) (d : bytearray)
    : ReceivedPacket * result unit :=
  let self := set_data self d in
  let rxchecksum := calculateChecksum (header self) 0 in
  let rxchecksum := calculateChecksum d rxchecksum in
  if negb (rxchecksum =? checksum self)
  then (self, Raise (ChecksumError rxchecksum))
  else (self, Ok tt).

(** ** The receive protocol of the class docstring

    The caller reads [HEADER_SIZE] bytes, constructs the instance, reads the
    payload and calls [validate]. *)
Definition receive (hdr payload : bytearray)
    : result ReceivedPacket :=
  self ← ReceivedPacket_init hdr;
  let '(self, r) := validate self payload in
  _ ← r;
  Ok self.

(** The same protocol on a byte stream that starts with a packet: after
    the header the caller reads [datasize] more bytes and hands those to
    [validate].  A [datasize] that is not positive reads nothing. *)
Definition receive_packet (pkt : bytearray) : result ReceivedPacket :=
  self ← ReceivedPacket_init (take 16 pkt);
  let payload := take (Z.to_nat (datasize self)) (drop 16 pkt) in
  let '(self, r) := validate self payload in
  _ ← r;
  Ok self.

(** Flipping bit [k] of the byte at offset [i]: [pkt[i] ^= 1 << k]. *)
Definition flip_bit (i : nat) (k : Z) (pkt : bytearray) : bytearray :=
  alter (fun b => Z.lxor b (Z.shiftl 1 k)) i pkt.

(** ** Wire images used in the statements *)

(** The sixteen bytes [pack_header] writes. *)
Definition header_bytes (m p c t : Z) : bytearray :=
  [163; 157; 122; m] ++ be_bytes 2 p ++ be_bytes 2 c ++ be_bytes 8 t.

(** A header buffer with its checksum field (offsets 6 and 7) cleared. *)
Definition zero_checksum_field (hdr : bytearray) : bytearray :=
  take 6 hdr ++ [0; 0] ++ drop 8 hdr.

Example makepacket_AB :
  makepacket 1 0x40934A0000000000 [65; 66]
  = Ok [163; 157; 122; 1; 0; 18; 0; 205; 64; 147; 74; 0; 0; 0; 0; 0; 65; 66].
Proof. vm_compute. reflexivity. Qed.

(** ** Big-endian fields *)

Section BigEndian.

Lemma be_bytes_length (n : nat) (v : Z) : length (be_bytes n v) = n.
Proof.
  revert v; induction n as [|n IH]; intros v; simpl; [done|].
  rewrite length_app, IH; simpl; lia.
Qed.

Lemma be_bytes_is_bytearray (n : nat) (v : Z) : is_bytearray (be_bytes n v).
Proof.
  revert v; induction n as [|n IH]; intros v; simpl.
  - constructor.
  - apply Forall_app; split; [apply IH|].
    constructor; [|constructor].
    unfold is_byte; apply Z.mod_pos_bound; lia.
Qed.

Lemma is_bytearray_cons (b : Z) (l : list Z) :
  is_bytearray (b :: l) <-> is_byte b /\ is_bytearray l.
Proof.
  unfold is_bytearray; split.
  - intros H; inversion H; auto.
  - intros [Hb Hl]; constructor; auto.
Qed.

Lemma is_bytearray_nil : is_bytearray [].
Proof. constructor. Qed.

Lemma is_bytearray_snoc (l : list Z) (b : Z) :
  is_bytearray (l ++ [b]) -> is_bytearray l /\ is_byte b.
Proof.
  unfold is_bytearray; rewrite Forall_app, Forall_singleton; tauto.
Qed.

Lemma be_int_snoc (l : list Z) (b : Z) :
  be_int (l ++ [b]) = be_int l * 256 + b.
Proof. unfold be_int; rewrite fold_left_app; reflexivity. Qed.

Lemma be_int_be_bytes (n : nat) (v : Z) :
  0 <= v < 256 ^ Z.of_nat n -> be_int (be_bytes n v) = v.
Proof.
  revert v; induction n as [|n IH]; intros v Hv.
  - simpl in *; unfold be_int; simpl; lia.
  - cbn [be_bytes]; rewrite be_int_snoc, IH.
    + pose proof (Z.div_mod v 256); lia.
    + rewrite Nat2Z.inj_succ, Z.pow_succ_r in Hv by lia.
      split; [apply Z.div_pos; lia|].
      apply Z.div_lt_upper_bound; lia.
Qed.

Lemma be_int_range (l : list Z) :
  is_bytearray l -> 0 <= be_int l < 256 ^ Z.of_nat (length l).
Proof.
  induction l as [|b l IH] using rev_ind; intros Hl.
  - unfold be_int; simpl; lia.
  - apply is_bytearray_snoc in Hl as [Hl Hb]; unfold is_byte in Hb.
    specialize (IH Hl).
    rewrite be_int_snoc, length_app; simpl.
    replace (Z.of_nat (length l + 1)) with (Z.succ (Z.of_nat (length l)))
      by lia.
    rewrite Z.pow_succ_r by lia; lia.
Qed.

Lemma be_bytes_be_int (l : list Z) :
  is_bytearray l -> be_bytes (length l) (be_int l) = l.
Proof.
  induction l as [|b l IH] using rev_ind; intros Hl; [done|].
  apply is_bytearray_snoc in Hl as [Hl Hb]; unfold is_byte in Hb.
  rewrite length_app, be_int_snoc; simpl.
  replace (length l + 1)%nat with (S (length l)) by lia.
  cbn [be_bytes].
  replace ((be_int l * 256 + b) / 256) with (be_int l).
  - replace ((be_int l * 256 + b) mod 256) with b.
    + rewrite IH by done; reflexivity.
    + rewrite Z.add_comm, Z.mod_add by lia.
      symmetry; apply Z.mod_small; lia.
  - rewrite Z.add_comm, Z.div_add by lia.
    rewrite Z.div_small by lia; lia.
Qed.

End BigEndian.

(** ** The XOR fold *)

Section Checksum.

Lemma calculateChecksum_app (a b : list Z) (seed : Z) :
  calculateChecksum (a ++ b) seed
  = calculateChecksum b (calculateChecksum a seed).
Proof. unfold calculateChecksum; apply fold_left_app. Qed.

Lemma calculateChecksum_cons (x : Z) (l : list Z) (seed : Z) :
  calculateChecksum (x :: l) seed = calculateChecksum l (Z.lxor seed x).
Proof. reflexivity. Qed.

(** XOR-ing a value into the seed XORs it into the result. *)
Lemma calculateChecksum_seed (l : list Z) (seed x : Z) :
  calculateChecksum l (Z.lxor seed x)
  = Z.lxor (calculateChecksum l seed) x.
Proof.
  revert seed; induction l as [|y l IH]; intros seed; [done|].
  rewrite !calculateChecksum_cons, <- IH.
  f_equal.
  rewrite !Z.lxor_assoc; f_equal; apply Z.lxor_comm.
Qed.

Lemma lxor_byte (a b : Z) : is_byte a -> is_byte b -> is_byte (Z.lxor a b).
Proof.
  unfold is_byte; intros [Ha Ha'] [Hb Hb'].
  assert (H0 : 0 <= Z.lxor a b) by (apply Z.lxor_nonneg; lia).
  split; [done|].
  destruct (Z.eq_dec (Z.lxor a b) 0) as [->|Hne]; [lia|].
  change 256 with (2 ^ 8).
  apply Z.log2_lt_pow2; [lia|].
  eapply Z.le_lt_trans; [apply Z.log2_lxor; lia|].
  apply Z.max_lub_lt.
  - destruct (Z.eq_dec a 0) as [->|]; [done|].
    apply Z.log2_lt_pow2; lia.
  - destruct (Z.eq_dec b 0) as [->|]; [done|].
    apply Z.log2_lt_pow2; lia.
Qed.

Lemma calculateChecksum_is_byte (l : list Z) (seed : Z) :
  is_byte seed -> is_bytearray l -> is_byte (calculateChecksum l seed).
Proof.
  intros Hs Hl; revert seed Hs.
  induction Hl as [|x l Hx Hl IH]; intros seed Hs; [done|].
  rewrite calculateChecksum_cons; apply IH, lxor_byte; done.
Qed.

(** A seed below 256, negative ones included, keeps the fold below 256. *)
Lemma lxor_below_256 (a b : Z) : a < 256 -> is_byte b -> Z.lxor a b < 256.
Proof.
  intros Ha Hb.
  destruct (Z.le_gt_cases 0 a) as [Hpos|Hneg].
  - apply (lxor_byte a b); [unfold is_byte; lia | exact Hb].
  - unfold is_byte in Hb.
    destruct (Z.le_gt_cases 0 (Z.lxor a b)) as [Hx|Hx]; [|lia].
    apply Z.lxor_nonneg in Hx; lia.
Qed.

Lemma calculateChecksum_below_256 (l : list Z) (seed : Z) :
  seed < 256 -> is_bytearray l -> calculateChecksum l seed < 256.
Proof.
  intros Hs Hl; revert seed Hs.
  induction Hl as [|x l Hx Hl IH]; intros seed Hs; [exact Hs|].
  rewrite calculateChecksum_cons; apply IH, lxor_below_256; done.
Qed.

(** XOR-ing a value into one item XORs it into the result. *)
Lemma calculateChecksum_alter (l : list Z) (i : nat) (seed x : Z) :
  (i < length l)%nat ->
  calculateChecksum (alter (fun b => Z.lxor b x) i l) seed
  = Z.lxor (calculateChecksum l seed) x.
Proof.
  revert i seed; induction l as [|y l IH]; intros i seed Hi;
    [simpl in Hi; lia|].
  destruct i as [|i]; cbn [alter list_alter].
  - rewrite !calculateChecksum_cons, <- calculateChecksum_seed.
    f_equal; symmetry; apply Z.lxor_assoc.
  - rewrite !calculateChecksum_cons; apply IH; simpl in Hi; lia.
Qed.

Lemma lxor_changes (c x : Z) : x <> 0 -> Z.lxor c x <> c.
Proof.
  intros Hx Heq; apply Hx.
  assert (H : Z.lxor c (Z.lxor c x) = x)
    by (rewrite <- Z.lxor_assoc, Z.lxor_nilpotent; apply Z.lxor_0_l).
  rewrite Heq, Z.lxor_nilpotent in H; done.
Qed.

Lemma bit_mask_is_byte (k : Z) : 0 <= k < 8 -> is_byte (Z.shiftl 1 k).
Proof.
  intros Hk; unfold is_byte.
  assert (Hc : k = 0 \/ k = 1 \/ k = 2 \/ k = 3
               \/ k = 4 \/ k = 5 \/ k = 6 \/ k = 7) by lia.
  destruct Hc as [->|[->|[->|[->|[->|[->|[->| ->]]]]]]];
    (split; [discriminate | reflexivity]).
Qed.

Lemma bit_mask_nonzero (k : Z) : 0 <= k -> Z.shiftl 1 k <> 0.
Proof.
  intros Hk; rewrite Z.shiftl_1_l.
  pose proof (Z.pow_pos_nonneg 2 k); lia.
Qed.

End Checksum.

(** ** The header codec *)

Section HeaderCodec.

Lemma in_ubyte_true (v : Z) : is_byte v -> in_ubyte v = true.
Proof.
  unfold is_byte, in_ubyte; intros Hv.
  apply andb_true_intro; split; apply Z.leb_le; lia.
Qed.

Lemma in_ushort_true (v : Z) : 0 <= v < 65536 -> in_ushort v = true.
Proof.
  unfold in_ushort; intros Hv.
  apply andb_true_intro; split; apply Z.leb_le; lia.
Qed.

Lemma in_ushort_false (v : Z) : 65536 <= v -> in_ushort v = false.
Proof.
  unfold in_ushort; intros Hv.
  apply andb_false_intro2, Z.leb_gt; lia.
Qed.

Lemma in_double_true (v : Z) : is_float64 v -> in_double v = true.
Proof.
  unfold is_float64, in_double; intros Hv.
  apply andb_true_intro; split; [apply Z.leb_le | apply Z.ltb_lt]; lia.
Qed.

Lemma header_bytes_length (m p c t : Z) :
  length (header_bytes m p c t) = 16%nat.
Proof.
  unfold header_bytes; rewrite !length_app, !be_bytes_length; reflexivity.
Qed.

Lemma header_bytes_is_bytearray (m p c t : Z) :
  is_byte m -> is_bytearray (header_bytes m p c t).
Proof.
  intros Hm; unfold header_bytes, is_bytearray.
  rewrite !Forall_app; repeat split; try apply be_bytes_is_bytearray.
  repeat constructor; unfold is_byte; try lia; apply Hm.
Qed.

Lemma pack_header_ok (buf : bytearray) (m p c t : Z) :
  (16 <= length buf)%nat ->
  is_byte m -> 0 <= p < 65536 -> 0 <= c < 65536 -> is_float64 t ->
  pack_header buf m p c t = Ok (header_bytes m p c t ++ drop 16 buf).
Proof.
  intros Hlen Hm Hp Hc Ht.
  unfold pack_header, pack_into, SYNC.
  destruct (Nat.ltb_spec (length buf) 16) as [Hlt|_]; [lia|].
  rewrite (in_ubyte_true m), (in_ushort_true p), (in_ushort_true c),
    (in_double_true t) by done.
  unfold header_bytes; rewrite <- !app_assoc; reflexivity.
Qed.

Lemma pack_header_too_big (buf : bytearray) (m p c t : Z) :
  65536 <= p -> pack_header buf m p c t = Raise StructError.
Proof.
  intros Hp; unfold pack_header, pack_into, SYNC.
  destruct (length buf <? 16)%nat; [done|].
  rewrite (in_ushort_false p) by done.
  rewrite !andb_false_r; reflexivity.
Qed.

Lemma unpack_from_fields (s1 s2 s3 m : Z) (P C T rest : list Z) :
  length P = 2%nat -> length C = 2%nat -> length T = 8%nat ->
  unpack_from ([s1; s2; s3; m] ++ P ++ C ++ T ++ rest)
  = Ok (s1, s2, s3, m, be_int P, be_int C, be_int T).
Proof.
  intros HP HC HT.
  destruct P as [|p1 [|p2 [|]]]; try discriminate.
  destruct C as [|c1 [|c2 [|]]]; try discriminate.
  do 8 (destruct T as [|? T]; try discriminate).
  destruct T; [reflexivity | discriminate].
Qed.

Lemma unpack_header_bytes (m p c t : Z) (rest : list Z) :
  0 <= p < 65536 -> 0 <= c < 65536 -> is_float64 t ->
  unpack_header (header_bytes m p c t ++ rest) = Ok (SYNC, m, p, c, t).
Proof.
  intros Hp Hc Ht; unfold unpack_header, header_bytes.
  rewrite <- !app_assoc.
  rewrite unpack_from_fields by apply be_bytes_length.
  rewrite !be_int_be_bytes by done.
  reflexivity.
Qed.

Lemma pack_header_raises (buf : bytearray) (m p c t : Z) (e : exception) :
  pack_header buf m p c t = Raise e -> e = StructError.
Proof.
  unfold pack_header, pack_into, SYNC.
  repeat match goal with
         | |- context [if ?b then _ else _] => destruct b
         end; congruence.
Qed.

Lemma pack_header_Ok_inv (buf out : bytearray) (m p c t : Z) :
  pack_header buf m p c t = Ok out ->
  is_byte m /\ 0 <= p < 65536 /\ 0 <= c < 65536 /\ is_float64 t
  /\ out = header_bytes m p c t ++ drop 16 buf.
Proof.
  unfold pack_header, pack_into, SYNC.
  destruct (length buf <? 16)%nat; [discriminate|].
  destruct (in_ubyte m) eqn:Em; [|rewrite ?andb_false_r; discriminate].
  destruct (in_ushort p) eqn:Ep; [|rewrite ?andb_false_r; discriminate].
  destruct (in_ushort c) eqn:Ec; [|rewrite ?andb_false_r; discriminate].
  destruct (in_double t) eqn:Et; [|rewrite ?andb_false_r; discriminate].
  cbn [andb in_ubyte Z.leb Z.compare Pos.compare Pos.compare_cont].
  intros [= <-].
  unfold in_ubyte, in_ushort, in_double in *.
  apply andb_prop in Em as [?%Z.leb_le ?%Z.leb_le].
  apply andb_prop in Ep as [?%Z.leb_le ?%Z.leb_le].
  apply andb_prop in Ec as [?%Z.leb_le ?%Z.leb_le].
  apply andb_prop in Et as [?%Z.leb_le ?%Z.ltb_lt].
  unfold is_byte, is_float64, header_bytes.
  rewrite <- !app_assoc; repeat split; try lia; reflexivity.
Qed.

End HeaderCodec.

(** ** The builder *)

Section Builder.

Lemma zeros_length (n : Z) : length (zeros n) = Z.to_nat n.
Proof. apply length_replicate. Qed.

Lemma makepacket_ok (m t : Z) (d : bytearray) :
  is_byte m -> is_float64 t -> is_bytearray d ->
  Z.of_nat (length d) <= 65519 ->
  let p := HEADER_SIZE + Z.of_nat (length d) in
  let c := calculateChecksum (header_bytes m p 0 t ++ d) 0 in
  makepacket m t d = Ok (header_bytes m p c t ++ d).
Proof.
  intros Hm Ht Hd Hlen p c; unfold makepacket.
  fold p.
  assert (Hp : 0 <= p < 65536) by (unfold p, HEADER_SIZE; lia).
  rewrite pack_header_ok
    by (done || (rewrite zeros_length; unfold p, HEADER_SIZE; lia)).
  cbn [mbind result_bind].
  rewrite take_app_length' by (rewrite header_bytes_length; done).
  fold c.
  assert (Hc : is_byte c).
  { apply calculateChecksum_is_byte; [unfold is_byte; lia|].
    apply Forall_app; split; [|done].
    apply header_bytes_is_bytearray, Hm. }
  assert (Hc' : 0 <= c < 65536) by (unfold is_byte in Hc; lia).
  rewrite pack_header_ok
    by (done || (rewrite length_app, header_bytes_length; lia)).
  cbn [mbind result_bind].
  rewrite drop_app_length' by (rewrite header_bytes_length; done).
  reflexivity.
Qed.

Lemma makepacket_too_big (m t : Z) (d : bytearray) :
  65519 < Z.of_nat (length d) -> makepacket m t d = Raise StructError.
Proof.
  intros Hlen; unfold makepacket.
  rewrite pack_header_too_big by (unfold HEADER_SIZE; lia).
  reflexivity.
Qed.

Lemma makepacket_Ok_inv (m t : Z) (d pkt : bytearray) :
  makepacket m t d = Ok pkt ->
  let p := HEADER_SIZE + Z.of_nat (length d) in
  let c := calculateChecksum (header_bytes m p 0 t ++ d) 0 in
  is_byte m /\ is_float64 t /\ Z.of_nat (length d) <= 65519
  /\ 0 <= c < 65536
  /\ pkt = header_bytes m p c t ++ d.
Proof.
  intros Hmk p c; unfold makepacket in Hmk; fold p in Hmk.
  destruct (pack_header (zeros p) m p 0 t) as [pkt1|e] eqn:E1;
    cbn [mbind result_bind] in Hmk; [|discriminate].
  apply pack_header_Ok_inv in E1 as (Hm & Hp & _ & Ht & ->).
  rewrite take_app_length' in Hmk by (rewrite header_bytes_length; done).
  fold c in Hmk.
  destruct (pack_header (header_bytes m p 0 t ++ d) m p c t)
    as [pkt2|e] eqn:E2; cbn [mbind result_bind] in Hmk; [|discriminate].
  apply pack_header_Ok_inv in E2 as (_ & _ & Hc & _ & ->).
  rewrite drop_app_length' in Hmk by (rewrite header_bytes_length; done).
  injection Hmk as <-.
  unfold p, HEADER_SIZE in Hp.
  do 2 (split; [done|]); split; [lia|]; split; [exact Hc|reflexivity].
Qed.

End Builder.

(** ** The receiver *)

Section Receiver.

Lemma init_header_bytes (m p c t : Z) :
  is_byte m -> 0 <= p < 65536 -> 0 <= c < 65536 -> is_float64 t ->
  ReceivedPacket_init (header_bytes m p c t)
  = Ok (mkReceivedPacket (header_bytes m p 0 t) m p c t
          (p - HEADER_SIZE) None).
Proof.
  intros Hm Hp Hc Ht; unfold ReceivedPacket_init.
  rewrite header_bytes_length; cbn [Z.of_nat negb].
  change (Z.of_nat 16 =? HEADER_SIZE) with true; cbn [negb].
  rewrite <- (app_nil_r (header_bytes m p c t)) at 1.
  rewrite unpack_header_bytes by done.
  cbn [mbind result_bind].
  change (sync_eqb SYNC SYNC) with true; cbn [negb].
  rewrite pack_header_ok
    by (done || lia || (rewrite header_bytes_length; lia)).
  rewrite drop_ge by (rewrite header_bytes_length; lia).
  rewrite app_nil_r; reflexivity.
Qed.

(** A sixteen-byte buffer is a header image exactly when it starts with
    the sync marker. *)
Lemma header_decompose (hdr : bytearray) :
  length hdr = 16%nat -> is_bytearray hdr ->
  take 3 hdr = [163; 157; 122] ->
  exists m p c t,
    is_byte m /\ 0 <= p < 65536 /\ 0 <= c < 65536 /\ is_float64 t
    /\ hdr = header_bytes m p c t
    /\ hdr !! 3%nat = Some m
    /\ p = be_int (take 2 (drop 4 hdr))
    /\ c = be_int (take 2 (drop 6 hdr))
    /\ t = be_int (take 8 (drop 8 hdr)).
Proof.
  intros Hlen Hb Hsync.
  destruct hdr as [|s1 [|s2 [|s3 [|m [|p1 [|p2 [|c1 [|c2
    [|t1 [|t2 [|t3 [|t4 [|t5 [|t6 [|t7 [|t8 [|]]]]]]]]]]]]]]]]];
    try discriminate.
  injection Hsync as -> -> ->.
  rewrite !is_bytearray_cons in Hb.
  destruct Hb as (_ & _ & _ & Hm & Hp1 & Hp2 & Hc1 & Hc2 & Ht1 & Ht2
                  & Ht3 & Ht4 & Ht5 & Ht6 & Ht7 & Ht8 & _).
  exists m, (be_int [p1; p2]), (be_int [c1; c2]),
    (be_int [t1; t2; t3; t4; t5; t6; t7; t8]).
  assert (B2 : forall a b, is_byte a -> is_byte b -> is_bytearray [a; b])
    by (intros; rewrite !is_bytearray_cons; auto using is_bytearray_nil).
  assert (B8 : is_bytearray [t1; t2; t3; t4; t5; t6; t7; t8])
    by (rewrite !is_bytearray_cons; auto 12 using is_bytearray_nil).
  split; [done|].
  split; [apply (be_int_range [p1; p2]), B2; done|].
  split; [apply (be_int_range [c1; c2]), B2; done|].
  split; [apply (be_int_range _ B8)|].
  split; [|done].
  unfold header_bytes.
  pose proof (be_bytes_be_int [p1; p2] (B2 _ _ Hp1 Hp2)) as Ep.
  pose proof (be_bytes_be_int [c1; c2] (B2 _ _ Hc1 Hc2)) as Ec.
  pose proof (be_bytes_be_int _ B8) as Et.
  cbn [length] in Ep, Ec, Et.
  rewrite Ep, Ec, Et; reflexivity.
Qed.

Lemma zero_checksum_field_header_bytes (m p c t : Z) :
  zero_checksum_field (header_bytes m p c t) = header_bytes m p 0 t.
Proof. reflexivity. Qed.

Lemma init_wrong_size (hdr : bytearray) :
  length hdr <> 16%nat ->
  ReceivedPacket_init hdr
  = Raise (HeaderSizeError (Z.of_nat (length hdr))).
Proof.
  intros Hlen; unfold ReceivedPacket_init, HEADER_SIZE.
  destruct (Z.eqb_spec (Z.of_nat (length hdr)) 16); [lia | reflexivity].
Qed.

Lemma init_bad_sync (s1 s2 s3 : Z) (rest : list Z) :
  length rest = 13%nat -> (s1, s2, s3) <> SYNC ->
  ReceivedPacket_init (s1 :: s2 :: s3 :: rest)
  = Raise (SyncError (s1, s2, s3)).
Proof.
  intros Hlen Hsync.
  destruct rest as [|m [|p1 [|p2 [|c1 [|c2
    [|t1 [|t2 [|t3 [|t4 [|t5 [|t6 [|t7 [|t8 [|]]]]]]]]]]]]]];
    try discriminate.
  unfold ReceivedPacket_init, unpack_header, unpack_from.
  cbn [length Z.of_nat Pos.of_succ_nat Pos.succ mbind result_bind].
  change (16 =? HEADER_SIZE) with true; cbn [negb].
  destruct (sync_eqb (s1, s2, s3) SYNC) eqn:E; [|reflexivity].
  exfalso; apply Hsync.
  unfold sync_eqb, SYNC in E.
  apply andb_prop in E as [E E3]; apply andb_prop in E as [E1 E2].
  apply Z.eqb_eq in E1, E2, E3; subst; reflexivity.
Qed.

Lemma init_ok (hdr : bytearray) :
  length hdr = 16%nat -> is_bytearray hdr ->
  take 3 hdr = [163; 157; 122] ->
  exists m p c t,
    is_byte m /\ 0 <= p < 65536 /\ 0 <= c < 65536 /\ is_float64 t
    /\ hdr = header_bytes m p c t
    /\ ReceivedPacket_init hdr
       = Ok (mkReceivedPacket (header_bytes m p 0 t) m p c t
               (p - HEADER_SIZE) None).
Proof.
  intros Hlen Hb Hsync.
  destruct (header_decompose hdr Hlen Hb Hsync)
    as (m & p & c & t & Hm & Hp & Hc & Ht & Heq & _).
  exists m, p, c, t.
  do 5 (split; [done|]).
  rewrite Heq at 1; apply init_header_bytes; done.
Qed.

Lemma validate_unfold (self : ReceivedPacket) (d : bytearray) :
  validate self d
  = (set_data self d,
     let rx := calculateChecksum (header self ++ d) 0 in
     if rx =? checksum self then Ok tt else Raise (ChecksumError rx)).
Proof.
  unfold validate; rewrite calculateChecksum_app.
  destruct self; cbn [set_data header checksum].
  match goal with |- context [?a =? ?b] => destruct (a =? b) end;
    reflexivity.
Qed.

(** The whole receive, for a header image. *)
Lemma receive_header_bytes (m p c t : Z) (d : bytearray) :
  is_byte m -> 0 <= p < 65536 -> 0 <= c < 65536 -> is_float64 t ->
  let rx := calculateChecksum (header_bytes m p 0 t ++ d) 0 in
  receive (header_bytes m p c t) d
  = if rx =? c
    then Ok (mkReceivedPacket (header_bytes m p 0 t) m p c t
               (p - HEADER_SIZE) (Some d))
    else Raise (ChecksumError rx).
Proof.
  intros Hm Hp Hc Ht rx; unfold receive.
  rewrite init_header_bytes by done.
  cbn [mbind result_bind].
  rewrite validate_unfold; cbn [header checksum set_data].
  fold rx; destruct (rx =? c); reflexivity.
Qed.

(** What an instance looks like when the constructor returns. *)
Lemma init_Ok_inv (hdr : bytearray) (self : ReceivedPacket) :
  ReceivedPacket_init hdr = Ok self ->
  length hdr = 16%nat
  /\ exists m p c t,
       is_byte m /\ 0 <= p < 65536 /\ is_float64 t
       /\ self = mkReceivedPacket (header_bytes m p 0 t) m p c t
                   (p - HEADER_SIZE) None.
Proof.
  unfold ReceivedPacket_init; intros Hinit.
  destruct (Z.eqb_spec (Z.of_nat (length hdr)) HEADER_SIZE) as [Hlen|];
    cbn [negb] in Hinit; [|discriminate].
  assert (Hlen' : length hdr = 16%nat) by (unfold HEADER_SIZE in Hlen; lia).
  split; [exact Hlen'|].
  destruct (unpack_header hdr) as [[[[[sync m] p] c] t]|e];
    cbn [mbind result_bind] in Hinit; [|discriminate].
  destruct (sync_eqb sync SYNC); cbn [negb] in Hinit; [|discriminate].
  destruct (pack_header hdr m p 0 t) as [out|e] eqn:Ep;
    cbn [mbind result_bind] in Hinit; [|discriminate].
  apply pack_header_Ok_inv in Ep as (Hm & Hp & _ & Ht & ->).
  rewrite drop_ge, app_nil_r in Hinit by lia.
  injection Hinit as <-.
  exists m, p, c, t.
  do 3 (split; [done|]); reflexivity.
Qed.

(** A well-framed header whose checksum field disagrees with the fold. *)
Lemma receive_checksum_error (hdr d : bytearray) :
  length hdr = 16%nat -> is_bytearray hdr ->
  take 3 hdr = [163; 157; 122] ->
  let rx := calculateChecksum (zero_checksum_field hdr ++ d) 0 in
  rx <> be_int (take 2 (drop 6 hdr)) ->
  receive hdr d = Raise (ChecksumError rx).
Proof.
  intros Hlen Hb Hsync.
  destruct (header_decompose hdr Hlen Hb Hsync)
    as (m & p & c & t & Hm & Hp & Hc & Ht & Hhdr & _ & _ & Hck & _).
  rewrite <- Hck; clear Hck; subst hdr.
  intros rx Hne.
  rewrite receive_header_bytes by done; cbv zeta.
  rewrite <- (zero_checksum_field_header_bytes m p c t); fold rx.
  destruct (Z.eqb_spec rx c); [contradiction | reflexivity].
Qed.

(** Altering one byte outside the checksum field commutes with clearing
    the field and leaves the field as it was. *)
Lemma alter_outside_checksum_field (f : Z -> Z) (i : nat) (hdr : bytearray) :
  length hdr = 16%nat -> i <> 6%nat -> i <> 7%nat ->
  zero_checksum_field (alter f i hdr) = alter f i (zero_checksum_field hdr)
  /\ take 2 (drop 6 (alter f i hdr)) = take 2 (drop 6 hdr).
Proof.
  intros Hlen Hi6 Hi7.
  destruct hdr as [|s1 [|s2 [|s3 [|m [|p1 [|p2 [|c1 [|c2
    [|t1 [|t2 [|t3 [|t4 [|t5 [|t6 [|t7 [|t8 [|]]]]]]]]]]]]]]]]];
    try discriminate.
  do 16 (destruct i as [|i];
         [first [split; reflexivity | congruence]|]).
  split; reflexivity.
Qed.

End Receiver.

(** ** Properties of the codec *)

Section Properties.

(** C1 (build/parse round trip).  For a message type in 0..255, a binary64
    timestamp and a payload of at most 65519 bytes, [makepacket] returns a
    packet; constructing a [ReceivedPacket] from its first sixteen bytes
    succeeds with [datasize] equal to the payload length; and [validate] on
    the next [datasize] bytes returns normally, after which the instance
    holds the original message type, timestamp and payload. *)
Theorem makepacket_roundtrip (m t : Z) (d : bytearray) :
  is_byte m -> is_float64 t -> is_bytearray d ->
  Z.of_nat (length d) <= 65519 ->
  exists pkt self,
    makepacket m t d = Ok pkt
    /\ ReceivedPacket_init (take 16 pkt) = Ok self
    /\ datasize self = Z.of_nat (length d)
    /\ take (Z.to_nat (datasize self)) (drop 16 pkt) = d
    /\ exists self',
         validate self (take (Z.to_nat (datasize self)) (drop 16 pkt))
         = (self', Ok tt)
         /\ msgtype self' = m
         /\ timestamp self' = t
         /\ data self' = Some d.
Proof.
  intros Hm Ht Hd Hlen.
  pose proof (makepacket_ok m t d Hm Ht Hd Hlen) as Hmk; cbv zeta in Hmk.
  set (p := HEADER_SIZE + Z.of_nat (length d)) in *.
  set (c := calculateChecksum (header_bytes m p 0 t ++ d) 0) in *.
  assert (Hp : 0 <= p < 65536) by (unfold p, HEADER_SIZE; lia).
  assert (Hc : 0 <= c < 65536).
  { assert (is_byte c) as Hc; [|unfold is_byte in Hc; lia].
    apply calculateChecksum_is_byte; [unfold is_byte; lia|].
    apply Forall_app; split; [|done].
    apply header_bytes_is_bytearray, Hm. }
  eexists _, _; split; [exact Hmk|].
  rewrite take_app_length' by (rewrite header_bytes_length; done).
  rewrite drop_app_length' by (rewrite header_bytes_length; done).
  rewrite init_header_bytes by done.
  split; [reflexivity|]; cbn [datasize].
  assert (Hsz : Z.to_nat (p - HEADER_SIZE) = length d) by (unfold p; lia).
  rewrite Hsz, firstn_all.
  split; [unfold p; lia|].
  split; [reflexivity|].
  eexists; rewrite validate_unfold.
  cbn [header checksum set_data msgtype timestamp data].
  fold c; rewrite Z.eqb_refl.
  repeat split.
Qed.

Lemma makepacket_roundtrip_witness :
  exists pkt self,
    makepacket 1 0x40934A0000000000 [65; 66] = Ok pkt
    /\ ReceivedPacket_init (take 16 pkt) = Ok self
    /\ datasize self = 2
    /\ take (Z.to_nat (datasize self)) (drop 16 pkt) = [65; 66]
    /\ exists self',
         validate self (take (Z.to_nat (datasize self)) (drop 16 pkt))
         = (self', Ok tt)
         /\ msgtype self' = 1
         /\ timestamp self' = 0x40934A0000000000
         /\ data self' = Some [65; 66].
Proof.
  apply (makepacket_roundtrip 1 0x40934A0000000000 [65; 66]).
  - unfold is_byte; lia.
  - unfold is_float64; lia.
  - repeat constructor; unfold is_byte; lia.
  - simpl; lia.
Defined.

(** C4 (checksum chaining).  The XOR fold of a concatenation with seed 0
    is the fold of the second part seeded with the fold of the first, for
    all byte sequences and so at every split point of a sequence. *)
Theorem checksum_chaining :
  (forall A B : list Z,
      calculateChecksum (A ++ B) 0
      = calculateChecksum B (calculateChecksum A 0))
  /\ (forall (l : list Z) (n : nat),
         calculateChecksum l 0
         = calculateChecksum (drop n l) (calculateChecksum (take n l) 0)).
Proof.
  split.
  - intros A B; apply calculateChecksum_app.
  - intros l n; rewrite <- calculateChecksum_app, take_drop; reflexivity.
Qed.

(** C5 (sync rejection).  For a sixteen-byte buffer whose first three
    bytes are not the sync marker, the constructor raises [SyncError] with
    the three bytes it read, whatever the other thirteen bytes are. *)
Theorem sync_rejection (hdr : bytearray) (s1 s2 s3 : Z) :
  length hdr = 16%nat ->
  take 3 hdr = [s1; s2; s3] ->
  (s1, s2, s3) <> (0xA3, 0x9D, 0x7A) ->
  ReceivedPacket_init hdr = Raise (SyncError (s1, s2, s3)).
Proof.
  intros Hlen Htake Hsync.
  destruct hdr as [|a [|b [|c rest]]]; try discriminate.
  injection Htake as -> -> ->.
  apply init_bad_sync; [simpl in Hlen; lia | exact Hsync].
Qed.

Lemma sync_rejection_witness :
  ReceivedPacket_init
    [0xA3; 0x9D; 0x7B; 1; 0; 18; 0; 205; 64; 147; 74; 0; 0; 0; 0; 0]
  = Raise (SyncError (0xA3, 0x9D, 0x7B)).
Proof.
  apply (sync_rejection _ 0xA3 0x9D 0x7B).
  - reflexivity.
  - reflexivity.
  - intros H; discriminate H.
Defined.

(** C6 (size rejection).  The constructor raises [HeaderSizeError] exactly
    when the buffer's length is not 16, and the error carries that length;
    the call then yields this error and no instance. *)
Theorem size_rejection (hdr : bytearray) :
  ((exists n, ReceivedPacket_init hdr = Raise (HeaderSizeError n))
   <-> Z.of_nat (length hdr) <> HEADER_SIZE)
  /\ (Z.of_nat (length hdr) <> HEADER_SIZE ->
      ReceivedPacket_init hdr
      = Raise (HeaderSizeError (Z.of_nat (length hdr)))).
Proof.
  assert (Hraise : Z.of_nat (length hdr) <> HEADER_SIZE ->
                   ReceivedPacket_init hdr
                   = Raise (HeaderSizeError (Z.of_nat (length hdr)))).
  { intros Hlen; apply init_wrong_size; unfold HEADER_SIZE in Hlen; lia. }
  split; [split|exact Hraise].
  - intros [n Hn] Hlen.
    unfold ReceivedPacket_init in Hn.
    rewrite Hlen, Z.eqb_refl in Hn; cbn [negb] in Hn.
    destruct (unpack_header hdr) as [[[[[sync m] p] c] t]|e] eqn:Eu.
    + cbn [mbind result_bind] in Hn.
      destruct (sync_eqb sync SYNC); cbn [negb] in Hn; [|discriminate].
      destruct (pack_header hdr m p 0 t) as [out|e] eqn:Ep;
        cbn [mbind result_bind] in Hn; [discriminate|].
      apply pack_header_raises in Ep; subst e; discriminate.
    + unfold unpack_header in Eu.
      destruct (unpack_from hdr) as [[[[[[[? ?] ?] ?] ?] ?] ?]|e'] eqn:Ef;
        cbn [mbind result_bind] in Eu; [discriminate|].
      unfold unpack_from in Ef.
      repeat match type of Ef with
             | match ?l with _ => _ end = _ => destruct l
             end; discriminate.
  - intros Hlen; eexists; apply Hraise, Hlen.
Qed.

Lemma size_rejection_witness :
  ReceivedPacket_init [0xA3; 0x9D; 0x7A] = Raise (HeaderSizeError 3).
Proof.
  apply (proj2 (size_rejection [0xA3; 0x9D; 0x7A])).
  intros H; discriminate H.
Defined.

(** C7 (size boundaries).  An empty payload gives a sixteen-byte packet
    whose [pktsize] field reads 16 and which the receiver accepts; a
    payload of 65519 bytes gives a packet whose [pktsize] field reads
    65535.  No packet [makepacket] returns is longer, and 65535 is the
    largest value the unsigned 16-bit field takes. *)
Theorem size_boundaries :
  (forall m t : Z,
      is_byte m -> is_float64 t ->
      exists pkt c self,
        makepacket m t [] = Ok pkt
        /\ length pkt = 16%nat
        /\ unpack_header pkt = Ok (SYNC, m, 16, c, t)
        /\ receive (take 16 pkt) (drop 16 pkt) = Ok self
        /\ pktsize self = 16)
  /\ (forall (m t : Z) (d : bytearray),
         is_byte m -> is_float64 t -> is_bytearray d ->
         Z.of_nat (length d) = 65519 ->
         exists pkt c,
           makepacket m t d = Ok pkt
           /\ Z.of_nat (length pkt) = 65535
           /\ unpack_header pkt = Ok (SYNC, m, 65535, c, t))
  /\ (forall (m t : Z) (d pkt : bytearray),
         makepacket m t d = Ok pkt -> Z.of_nat (length pkt) <= 65535)
  /\ (forall v : Z, in_ushort v = true -> v <= 65535)
  /\ in_ushort 65535 = true.
Proof.
  assert (Hck : forall m p t d, is_byte m -> is_bytearray d ->
            0 <= calculateChecksum (header_bytes m p 0 t ++ d) 0 < 65536).
  { intros m p t d Hm Hd.
    assert (is_byte (calculateChecksum (header_bytes m p 0 t ++ d) 0))
      as Hc; [|unfold is_byte in Hc; lia].
    apply calculateChecksum_is_byte; [unfold is_byte; lia|].
    apply Forall_app; split; [|done].
    apply header_bytes_is_bytearray, Hm. }
  split; [|split; [|split; [|split]]].
  - intros m t Hm Ht.
    pose proof (makepacket_ok m t [] Hm Ht is_bytearray_nil
                  ltac:(simpl; lia)) as Hmk.
    cbv zeta in Hmk.
    change (HEADER_SIZE + Z.of_nat (length (@nil Z))) with 16 in Hmk.
    pose proof (Hck m 16 t [] Hm is_bytearray_nil) as Hc.
    set (c := calculateChecksum (header_bytes m 16 0 t ++ []) 0) in *.
    eexists _, c, _; split; [exact Hmk|].
    rewrite app_nil_r.
    split; [apply header_bytes_length|].
    split.
    { rewrite <- (app_nil_r (header_bytes m 16 c t)).
      apply unpack_header_bytes; [lia|done|done]. }
    rewrite take_ge, drop_ge by (rewrite header_bytes_length; lia).
    rewrite receive_header_bytes by (done || lia).
    cbv zeta; fold c; rewrite Z.eqb_refl.
    split; reflexivity.
  - intros m t d Hm Ht Hd Hlen.
    pose proof (makepacket_ok m t d Hm Ht Hd ltac:(lia)) as Hmk.
    cbv zeta in Hmk; rewrite Hlen in Hmk.
    change (HEADER_SIZE + 65519) with 65535 in Hmk.
    pose proof (Hck m 65535 t d Hm Hd) as Hc.
    eexists _, _; split; [exact Hmk|].
    split; [rewrite length_app, header_bytes_length; lia|].
    apply unpack_header_bytes; [lia|done|done].
  - intros m t d pkt Hmk.
    apply makepacket_Ok_inv in Hmk as (_ & _ & Hlen & _ & ->).
    rewrite length_app, header_bytes_length; lia.
  - intros v Hv; unfold in_ushort in Hv.
    apply andb_prop in Hv as [_ Hv%Z.leb_le]; exact Hv.
  - reflexivity.
Qed.

Lemma size_boundaries_witness :
  (exists pkt c self,
      makepacket 1 0 [] = Ok pkt
      /\ length pkt = 16%nat
      /\ unpack_header pkt = Ok (SYNC, 1, 16, c, 0)
      /\ receive (take 16 pkt) (drop 16 pkt) = Ok self
      /\ pktsize self = 16)
  /\ (exists pkt c,
         makepacket 1 0 (replicate (Z.to_nat 65519) 7) = Ok pkt
         /\ Z.of_nat (length pkt) = 65535
         /\ unpack_header pkt = Ok (SYNC, 1, 65535, c, 0))
  /\ Z.of_nat (length (header_bytes 1 16 85 0)) <= 65535.
Proof.
  assert (Hm : is_byte 1) by (unfold is_byte; lia).
  assert (Ht : is_float64 0) by (unfold is_float64; lia).
  destruct size_boundaries as (Hmin & Hmax & Hle & _).
  split; [exact (Hmin 1 0 Hm Ht)|].
  split.
  - apply (Hmax 1 0 (replicate (Z.to_nat 65519) 7) Hm Ht).
    + apply Forall_replicate; unfold is_byte; lia.
    + rewrite length_replicate; lia.
  - apply (Hle 1 0 []); vm_compute; reflexivity.
Defined.

(** C8 (header re-serialization).  When the constructor returns for a
    sixteen-byte header buffer, the stored header is sixteen bytes long,
    holds zero at offsets 6 and 7, and agrees with the buffer as passed in
    at every other offset. *)
Theorem header_reserialization (hdr : bytearray) (self : ReceivedPacket) :
  length hdr = 16%nat -> is_bytearray hdr ->
  ReceivedPacket_init hdr = Ok self ->
  length (header self) = 16%nat
  /\ header self !! 6%nat = Some 0
  /\ header self !! 7%nat = Some 0
  /\ forall i : nat, i <> 6%nat -> i <> 7%nat ->
                     header self !! i = hdr !! i.
Proof.
  intros Hlen Hb Hinit.
  assert (Hsync : take 3 hdr = [163; 157; 122]).
  { destruct hdr as [|s1 [|s2 [|s3 rest]]]; try discriminate.
    destruct (decide ((s1, s2, s3) = SYNC)) as [[= -> -> ->]|Hne];
      [reflexivity|].
    rewrite init_bad_sync in Hinit; [discriminate| |exact Hne].
    simpl in Hlen; lia. }
  destruct (init_ok hdr Hlen Hb Hsync)
    as (m & p & c & t & _ & _ & _ & _ & Hhdr & Hok).
  rewrite Hok in Hinit; injection Hinit as <-; cbn [header].
  split; [apply header_bytes_length|].
  split; [reflexivity|].
  split; [reflexivity|].
  intros i Hi6 Hi7; rewrite Hhdr.
  cbn [header_bytes be_bytes app].
  do 16 (destruct i as [|i]; [first [reflexivity | congruence]|]).
  reflexivity.
Qed.

Lemma header_reserialization_witness :
  let hdr :=
    [0xA3; 0x9D; 0x7A; 1; 0; 18; 0; 205; 64; 147; 74; 0; 0; 0; 0; 0] in
  let self :=
    mkReceivedPacket
      [0xA3; 0x9D; 0x7A; 1; 0; 18; 0; 0; 64; 147; 74; 0; 0; 0; 0; 0]
      1 18 205 0x40934A0000000000 2 None in
  length (header self) = 16%nat
  /\ header self !! 6%nat = Some 0
  /\ header self !! 7%nat = Some 0
  /\ forall i : nat, i <> 6%nat -> i <> 7%nat ->
                     header self !! i = hdr !! i.
Proof.
  apply header_reserialization.
  - reflexivity.
  - repeat constructor; unfold is_byte; lia.
  - vm_compute; reflexivity.
Defined.

(** C10 (no lower bound on pktsize).  For a sixteen-byte header buffer that
    starts with the sync marker the constructor returns, whatever the
    [pktsize] field holds; [datasize] is [pktsize - 16], which is negative
    when the field is below 16. *)
Theorem no_pktsize_lower_bound (hdr : bytearray) :
  length hdr = 16%nat -> is_bytearray hdr ->
  take 3 hdr = [0xA3; 0x9D; 0x7A] ->
  exists self,
    ReceivedPacket_init hdr = Ok self
    /\ pktsize self = be_int (take 2 (drop 4 hdr))
    /\ datasize self = pktsize self - HEADER_SIZE
    /\ (pktsize self < HEADER_SIZE -> datasize self < 0).
Proof.
  intros Hlen Hb Hsync.
  destruct (header_decompose hdr Hlen Hb Hsync)
    as (m & p & c & t & Hm & Hp & Hc & Ht & Hhdr & _ & Hpk & _).
  eexists; split.
  - rewrite Hhdr at 1; apply init_header_bytes; done.
  - cbn [pktsize datasize]; split; [exact Hpk|].
    split; [reflexivity|]; lia.
Qed.

Lemma no_pktsize_lower_bound_witness :
  exists self,
    ReceivedPacket_init
      [0xA3; 0x9D; 0x7A; 1; 0; 5; 0; 0; 0; 0; 0; 0; 0; 0; 0; 0] = Ok self
    /\ pktsize self = 5
    /\ datasize self = -11.
Proof.
  destruct (no_pktsize_lower_bound
              [0xA3; 0x9D; 0x7A; 1; 0; 5; 0; 0; 0; 0; 0; 0; 0; 0; 0; 0])
    as (self & Hinit & Hpk & Hds & _).
  - reflexivity.
  - repeat constructor; unfold is_byte; lia.
  - reflexivity.
  - exists self; split; [exact Hinit|].
    rewrite Hds, Hpk; split; reflexivity.
Defined.

(** C9 (the checksum is eight bits wide).  With a seed below 256 the XOR
    fold of a byte sequence is below 256 (and is not negative when the seed
    is not); so the checksum field of every
    packet [makepacket] returns reads at most 255, and an instance whose
    received checksum is 256 or more fails [validate] on every payload. *)
Theorem checksum_eight_bits :
  (forall (seed : Z) (d : bytearray),
      seed < 256 -> is_bytearray d ->
      calculateChecksum d seed < 256
      /\ (0 <= seed -> 0 <= calculateChecksum d seed))
  /\ (forall (m t : Z) (d pkt : bytearray),
         is_bytearray d -> makepacket m t d = Ok pkt ->
         exists sync m' p c t',
           unpack_header pkt = Ok (sync, m', p, c, t') /\ 0 <= c <= 255)
  /\ (forall (hdr payload : bytearray) (self : ReceivedPacket),
         ReceivedPacket_init hdr = Ok self ->
         is_bytearray payload ->
         256 <= checksum self ->
         exists rx,
           snd (validate self payload) = Raise (ChecksumError rx)).
Proof.
  split; [|split].
  - intros seed d Hs Hd; split.
    + apply calculateChecksum_below_256; done.
    + intros H0; apply (calculateChecksum_is_byte d seed); [|exact Hd].
      unfold is_byte; lia.
  - intros m t d pkt Hd Hmk.
    apply makepacket_Ok_inv in Hmk as (Hm & Ht & Hlen & Hc & ->).
    set (p := HEADER_SIZE + Z.of_nat (length d)) in *.
    set (c := calculateChecksum (header_bytes m p 0 t ++ d) 0) in *.
    exists SYNC, m, p, c, t; split.
    + apply unpack_header_bytes; [unfold p, HEADER_SIZE; lia|done|done].
    + assert (is_byte c) as Hb; [|unfold is_byte in Hb; lia].
      apply calculateChecksum_is_byte; [unfold is_byte; lia|].
      apply Forall_app; split; [|done].
      apply header_bytes_is_bytearray, Hm.
  - intros hdr payload self Hinit Hpay Hbig.
    apply init_Ok_inv in Hinit as (_ & m & p & c & t & Hm & _ & _ & ->).
    cbn [checksum] in Hbig.
    rewrite validate_unfold; cbn [snd header checksum].
    set (rx := calculateChecksum (header_bytes m p 0 t ++ payload) 0).
    assert (is_byte rx) as Hrx.
    { apply calculateChecksum_is_byte; [unfold is_byte; lia|].
      apply Forall_app; split; [|done].
      apply header_bytes_is_bytearray, Hm. }
    unfold is_byte in Hrx.
    destruct (Z.eqb_spec rx c) as [Heq|_]; [lia|].
    exists rx; reflexivity.
Qed.

Lemma checksum_eight_bits_witness :
  (calculateChecksum [65; 66] 205 < 256
   /\ (0 <= 205 -> 0 <= calculateChecksum [65; 66] 205))
  /\ (exists sync m' p c t',
         unpack_header
           [163; 157; 122; 1; 0; 18; 0; 205; 64; 147; 74; 0; 0; 0; 0; 0;
            65; 66]
         = Ok (sync, m', p, c, t') /\ 0 <= c <= 255)
  /\ (exists rx,
         snd (validate
                (mkReceivedPacket
                   [163; 157; 122; 1; 0; 18; 0; 0;
                    64; 147; 74; 0; 0; 0; 0; 0]
                   1 18 461 0x40934A0000000000 2 None)
                [65; 66])
         = Raise (ChecksumError rx)).
Proof.
  destruct checksum_eight_bits as (Hfold & Hfield & Hnever).
  assert (Hd : is_bytearray [65; 66])
    by (repeat constructor; unfold is_byte; lia).
  split; [apply Hfold; [lia | exact Hd]|].
  split.
  - apply (Hfield 1 0x40934A0000000000 [65; 66]); [exact Hd|].
    vm_compute; reflexivity.
  - apply (Hnever
             [163; 157; 122; 1; 0; 18; 1; 205; 64; 147; 74; 0; 0; 0; 0; 0]);
      [vm_compute; reflexivity | exact Hd | simpl; lia].
Defined.

(** Every call of [validate] leaves the payload in the [data] attribute,
    whether it returns or raises. *)
Lemma validate_always_stores (self : ReceivedPacket) (d : bytearray) :
  data (fst (validate self d)) = Some d.
Proof. rewrite validate_unfold; reflexivity. Qed.

(** C3 (payload observability).  On a header whose checksum field does not
    match, [validate] raises [ChecksumError] and the instance it leaves
    behind has the rejected payload in [data], which was unset before the
    call: the assignment precedes the comparison. *)
Theorem validate_stores_rejected_payload :
  exists self self',
    ReceivedPacket_init
      [0xA3; 0x9D; 0x7A; 1; 0; 18; 0; 0; 64; 147; 74; 0; 0; 0; 0; 0]
    = Ok self
    /\ data self = None
    /\ validate self [65; 66] = (self', Raise (ChecksumError 205))
    /\ data self' = Some [65; 66]
    /\ self' <> self.
Proof.
  eexists _, _; split; [vm_compute; reflexivity|].
  split; [reflexivity|].
  split; [vm_compute; reflexivity|].
  split; [reflexivity|].
  intros H; discriminate H.
Qed.

(** One flipped bit in a built packet, with [validate] handed every byte
    after the header: [ChecksumError] for a flip at offset 3 or later and
    outside the checksum field, [SyncError] for a flip in the sync
    marker. *)
Lemma flipped_bit_whole_payload
    (m t : Z) (d pkt : bytearray) (i : nat) (k : Z) :
  is_bytearray d ->
  makepacket m t d = Ok pkt ->
  (i < length pkt)%nat -> 0 <= k < 8 ->
  let pkt' := flip_bit i k pkt in
  ((3 <= i)%nat -> i <> 6%nat -> i <> 7%nat ->
   exists rx,
     receive (take 16 pkt') (drop 16 pkt') = Raise (ChecksumError rx))
  /\ ((i < 3)%nat ->
      exists sync,
        sync <> SYNC
        /\ receive (take 16 pkt') (drop 16 pkt') = Raise (SyncError sync)).
Proof.
  intros Hd Hmk Hi Hk pkt'; unfold pkt', flip_bit; clear pkt'.
  apply makepacket_Ok_inv in Hmk as (Hm & Ht & Hlen & Hc & ->).
  set (p := HEADER_SIZE + Z.of_nat (length d)) in *.
  set (c := calculateChecksum (header_bytes m p 0 t ++ d) 0) in *.
  set (x := Z.shiftl 1 k).
  set (f := fun b : Z => Z.lxor b x).
  assert (Hx : is_byte x) by (apply bit_mask_is_byte, Hk).
  assert (Hx0 : x <> 0) by (apply bit_mask_nonzero; lia).
  assert (Hp : 0 <= p < 65536) by (unfold p, HEADER_SIZE; lia).
  pose proof (header_bytes_length m p c t) as HL.
  pose proof (header_bytes_is_bytearray m p c t Hm) as HB.
  split.
  - intros Hi3 Hi6 Hi7.
    destruct (decide (i < 16)%nat) as [Hhdr|Hpay].
    + (* the flipped bit is in the header *)
      rewrite alter_app_l by lia.
      rewrite take_app_length', drop_app_length'
        by (rewrite length_alter; exact HL).
      destruct (alter_outside_checksum_field f i _ HL Hi6 Hi7)
        as [Hzero Hfield].
      eexists; apply receive_checksum_error.
      * rewrite length_alter; exact HL.
      * apply Forall_alter; [exact HB|].
        intros b _ Hbyte; apply lxor_byte; done.
      * rewrite take_alter_ge by lia; reflexivity.
      * rewrite Hzero, Hfield, zero_checksum_field_header_bytes.
        rewrite <- alter_app_l by (rewrite header_bytes_length; lia).
        unfold f; rewrite calculateChecksum_alter
          by (rewrite length_app, header_bytes_length; lia).
        fold c.
        change (take 2 (drop 6 (header_bytes m p c t)))
          with (be_bytes 2 c).
        rewrite be_int_be_bytes by done.
        apply lxor_changes, Hx0.
    + (* the flipped bit is in the payload *)
      rewrite alter_app_r_alt by lia.
      rewrite take_app_length', drop_app_length' by exact HL.
      rewrite HL.
      rewrite length_app, HL in Hi.
      rewrite receive_header_bytes by done; cbv zeta.
      rewrite calculateChecksum_app.
      unfold f; rewrite calculateChecksum_alter by lia.
      rewrite <- calculateChecksum_app; fold c.
      destruct (Z.eqb_spec (Z.lxor c x) c) as [Heq|_].
      * exfalso; revert Heq; apply lxor_changes, Hx0.
      * eexists; reflexivity.
  - intros Hi3.
    rewrite alter_app_l by lia.
    rewrite take_app_length', drop_app_length'
      by (rewrite length_alter; exact HL).
    assert (Hinit : exists sync, sync <> SYNC
              /\ ReceivedPacket_init (alter f i (header_bytes m p c t))
                 = Raise (SyncError sync)).
    { unfold header_bytes; cbn [app].
      destruct i as [|[|[|i]]]; [| | |lia]; cbn [alter list_alter];
        eexists; (split; [|apply init_bad_sync]);
        try (cbn [length]; rewrite !length_app, !be_bytes_length;
             reflexivity);
        unfold SYNC, f; intros [= Heq]; revert Heq;
        apply lxor_changes, Hx0. }
    destruct Hinit as (sync & Hne & Hinit).
    exists sync; split; [exact Hne|].
    unfold receive; rewrite Hinit; reflexivity.
Qed.

(** A flip at offset 3 or from offset 8 on leaves [pktsize] as it was: the
    constructor returns and [datasize] is the number of bytes that follow
    the header. *)
Lemma flipped_bit_keeps_datasize
    (m t : Z) (d pkt : bytearray) (i : nat) (k : Z) :
  is_bytearray d ->
  makepacket m t d = Ok pkt ->
  (i < length pkt)%nat -> 0 <= k < 8 ->
  i = 3%nat \/ (8 <= i)%nat ->
  exists self,
    ReceivedPacket_init (take 16 (flip_bit i k pkt)) = Ok self
    /\ datasize self = Z.of_nat (length (drop 16 (flip_bit i k pkt))).
Proof.
  intros Hd Hmk Hi Hk Hoff; unfold flip_bit.
  apply makepacket_Ok_inv in Hmk as (Hm & Ht & Hlen & Hc & ->).
  set (p := HEADER_SIZE + Z.of_nat (length d)) in *.
  set (c := calculateChecksum (header_bytes m p 0 t ++ d) 0) in *.
  set (f := fun b : Z => Z.lxor b (Z.shiftl 1 k)).
  assert (Hx : is_byte (Z.shiftl 1 k)) by (apply bit_mask_is_byte, Hk).
  assert (Hp : 0 <= p < 65536) by (unfold p, HEADER_SIZE; lia).
  pose proof (header_bytes_length m p c t) as HL.
  pose proof (header_bytes_is_bytearray m p c t Hm) as HB.
  destruct (decide (i < 16)%nat) as [Hhdr|Hpay].
  - rewrite alter_app_l by lia.
    rewrite take_app_length', drop_app_length'
      by (rewrite length_alter; exact HL).
    destruct (header_decompose (alter f i (header_bytes m p c t)))
      as (m' & p' & c' & t' & Hm' & Hp' & Hc' & Ht' & Hhdr' & _ & Hpk & _).
    + rewrite length_alter; exact HL.
    + apply Forall_alter; [exact HB|].
      intros b _ Hbyte; apply lxor_byte; done.
    + rewrite take_alter_ge by lia; reflexivity.
    + assert (Hsame : take 2 (drop 4 (alter f i (header_bytes m p c t)))
                      = be_bytes 2 p).
      { destruct Hoff as [-> | Hoff].
        - rewrite drop_alter_lt by lia; reflexivity.
        - rewrite drop_alter_ge, take_alter_ge by lia; reflexivity. }
      rewrite Hsame, be_int_be_bytes in Hpk by done; subst p'.
      rewrite Hhdr', init_header_bytes by done.
      eexists; split; [reflexivity|].
      cbn [datasize]; unfold p; lia.
  - rewrite alter_app_r_alt by lia.
    rewrite take_app_length', drop_app_length' by exact HL.
    rewrite init_header_bytes by (done || (unfold is_byte in *; lia)).
    eexists; split; [reflexivity|].
    cbn [datasize]; rewrite length_alter; unfold p; lia.
Qed.

(** When the bytes after the header are no more than [datasize], reading
    [datasize] bytes hands [validate] all of them. *)
Lemma receive_packet_whole (pkt : bytearray) (self : ReceivedPacket) :
  ReceivedPacket_init (take 16 pkt) = Ok self ->
  Z.of_nat (length (drop 16 pkt)) <= datasize self ->
  receive_packet pkt = receive (take 16 pkt) (drop 16 pkt).
Proof.
  intros Hinit Hsize; unfold receive_packet, receive.
  rewrite Hinit; cbn [mbind result_bind]; cbv zeta.
  rewrite take_ge by lia; reflexivity.
Qed.

(** A [SyncError] comes from the constructor, so both receives give it. *)
Lemma receive_packet_sync_error (pkt : bytearray) (sync : Z * Z * Z) :
  receive (take 16 pkt) (drop 16 pkt) = Raise (SyncError sync) ->
  receive_packet pkt = Raise (SyncError sync).
Proof.
  unfold receive, receive_packet.
  destruct (ReceivedPacket_init (take 16 pkt)) as [self|e];
    cbn [mbind result_bind]; [|intros H; exact H].
  rewrite validate_unfold; cbv zeta.
  match goal with |- context [?a =? ?b] => destruct (a =? b) end;
    cbn [mbind result_bind]; intros H; discriminate H.
Qed.

(** C2 (corruption detection), as the code has it.  In a packet that
    [makepacket] returned, flip one bit and run the two-phase receive:
    construct the instance from the sixteen header bytes, then validate the
    [datasize] bytes that follow.  A flip in the payload, or in the header
    at offset 3 (msgtype) or 8-15 (timestamp), raises [ChecksumError]; a
    flip in the sync marker (offsets 0-2) raises [SyncError], since the
    constructor compares the marker before any checksum is computed.  A
    flip in the pktsize field (offsets 4-5) changes [datasize]; it raises
    [ChecksumError] when [validate] is handed every byte after the
    header. *)
Theorem corruption_detection
    (m t : Z) (d pkt : bytearray) (i : nat) (k : Z) :
  is_bytearray d ->
  makepacket m t d = Ok pkt ->
  (i < length pkt)%nat -> 0 <= k < 8 ->
  let pkt' := flip_bit i k pkt in
  (i = 3%nat \/ (8 <= i)%nat ->
   exists rx, receive_packet pkt' = Raise (ChecksumError rx))
  /\ ((i < 3)%nat ->
      exists sync,
        sync <> SYNC /\ receive_packet pkt' = Raise (SyncError sync))
  /\ (i = 4%nat \/ i = 5%nat ->
      exists rx,
        receive (take 16 pkt') (drop 16 pkt') = Raise (ChecksumError rx)).
Proof.
  intros Hd Hmk Hi Hk pkt'.
  destruct (flipped_bit_whole_payload m t d pkt i k Hd Hmk Hi Hk)
    as [Hsum Hsync]; fold pkt' in Hsum, Hsync.
  split; [|split].
  - intros Hoff.
    destruct (flipped_bit_keeps_datasize m t d pkt i k Hd Hmk Hi Hk Hoff)
      as (self & Hinit & Hsize); fold pkt' in Hinit, Hsize.
    rewrite (receive_packet_whole pkt' self Hinit) by lia.
    apply Hsum; lia.
  - intros Hlt.
    destruct (Hsync Hlt) as (sync & Hne & Hrecv).
    exists sync; split; [exact Hne|].
    apply receive_packet_sync_error, Hrecv.
  - intros Hoff; apply Hsum; lia.
Qed.

Lemma corruption_detection_witness :
  let pkt :=
    [163; 157; 122; 1; 0; 18; 0; 205; 64; 147; 74; 0; 0; 0; 0; 0; 65; 66] in
  (exists rx, receive_packet (flip_bit 16 0 pkt) = Raise (ChecksumError rx))
  /\ (exists rx, receive_packet (flip_bit 3 3 pkt) = Raise (ChecksumError rx))
  /\ (exists sync,
         sync <> SYNC
         /\ receive_packet (flip_bit 2 7 pkt) = Raise (SyncError sync))
  /\ (exists rx,
         receive (take 16 (flip_bit 5 3 pkt)) (drop 16 (flip_bit 5 3 pkt))
         = Raise (ChecksumError rx)).
Proof.
  intros pkt.
  assert (Hd : is_bytearray [65; 66])
    by (repeat constructor; unfold is_byte; lia).
  assert (Hmk : makepacket 1 0x40934A0000000000 [65; 66] = Ok pkt)
    by (vm_compute; reflexivity).
  pose proof (corruption_detection _ _ _ pkt 16 0 Hd Hmk
                ltac:(simpl; lia) ltac:(lia)) as Hpayload.
  pose proof (corruption_detection _ _ _ pkt 3 3 Hd Hmk
                ltac:(simpl; lia) ltac:(lia)) as Hmsgtype.
  pose proof (corruption_detection _ _ _ pkt 2 7 Hd Hmk
                ltac:(simpl; lia) ltac:(lia)) as Hmarker.
  pose proof (corruption_detection _ _ _ pkt 5 3 Hd Hmk
                ltac:(simpl; lia) ltac:(lia)) as Hpktsize.
  cbv zeta in Hpayload, Hmsgtype, Hmarker, Hpktsize.
  split; [apply (proj1 Hpayload); right; lia|].
  split; [apply (proj1 Hmsgtype); left; reflexivity|].
  split; [apply (proj1 (proj2 Hmarker)); lia|].
  apply (proj2 (proj2 Hpktsize)); right; reflexivity.
Defined.

(** Detection by checksum does not cover every header bit outside the
    checksum field.  Flipping bit 0 of byte 0 of a built packet makes the
    receive raise [SyncError], not [ChecksumError].  Flipping bit 1 of byte
    5 of the packet built from the payload [1; 3] turns pktsize 18 into 16:
    the receiver reads no payload and accepts the packet with empty
    data. *)
Lemma corruption_detection_counterexample :
  let pkt :=
    [163; 157; 122; 1; 0; 18; 0; 205; 64; 147; 74; 0; 0; 0; 0; 0; 65; 66] in
  let pkt2 :=
    [163; 157; 122; 1; 0; 18; 0; 204; 64; 147; 74; 0; 0; 0; 0; 0; 1; 3] in
  makepacket 1 0x40934A0000000000 [65; 66] = Ok pkt
  /\ receive (take 16 (flip_bit 0 0 pkt)) (drop 16 (flip_bit 0 0 pkt))
     = Raise (SyncError (162, 157, 122))
  /\ receive_packet (flip_bit 0 0 pkt) = Raise (SyncError (162, 157, 122))
  /\ ~ (exists rx,
           receive (take 16 (flip_bit 0 0 pkt)) (drop 16 (flip_bit 0 0 pkt))
           = Raise (ChecksumError rx))
  /\ makepacket 1 0x40934A0000000000 [1; 3] = Ok pkt2
  /\ receive_packet (flip_bit 5 1 pkt2)
     = Ok (mkReceivedPacket
             [163; 157; 122; 1; 0; 16; 0; 0; 64; 147; 74; 0; 0; 0; 0; 0]
             1 16 204 0x40934A0000000000 0 (Some [])).
Proof.
  intros pkt pkt2.
  split; [vm_compute; reflexivity|].
  split; [vm_compute; reflexivity|].
  split; [vm_compute; reflexivity|].
  split; [intros [rx Hrx]; vm_compute in Hrx; discriminate Hrx|].
  split; vm_compute; reflexivity.
Qed.

(** The module's [MAX_PACKET_SIZE] is one more than the largest packet the
    header can describe: a payload that would fill it is refused. *)
Lemma max_packet_size_not_packable (m t : Z) (d : bytearray) :
  HEADER_SIZE + Z.of_nat (length d) = MAX_PACKET_SIZE ->
  makepacket m t d = Raise StructError.
Proof.
  unfold HEADER_SIZE, MAX_PACKET_SIZE; intros Hlen.
  apply makepacket_too_big; lia.
Qed.

End Properties.

(** ** Further properties of the header codec *)

Section HeaderCodecProperties.

(** What [unpack_header] read, in terms of the buffer. *)
Lemma unpack_header_Ok_inv (buf : bytearray) (sync : Z * Z * Z)
    (m p c t : Z) :
  unpack_header buf = Ok (sync, m, p, c, t) ->
  (16 <= length buf)%nat
  /\ (exists s1 s2 s3, sync = (s1, s2, s3) /\ take 3 buf = [s1; s2; s3])
  /\ buf !! 3%nat = Some m
  /\ p = be_int (take 2 (drop 4 buf))
  /\ c = be_int (take 2 (drop 6 buf))
  /\ t = be_int (take 8 (drop 8 buf)).
Proof.
  unfold unpack_header, unpack_from; intros Hu.
  destruct buf as [|s1 [|s2 [|s3 [|m' [|p1 [|p2 [|c1 [|c2
    [|t1 [|t2 [|t3 [|t4 [|t5 [|t6 [|t7 [|t8 rest]]]]]]]]]]]]]]]];
    cbn [mbind result_bind] in Hu; try discriminate.
  injection Hu as <- <- <- <- <-.
  split; [cbn [length]; lia|].
  split; [exists s1, s2, s3; split; reflexivity|].
  repeat split.
Qed.

Lemma unpack_header_short (buf : bytearray) :
  (length buf < 16)%nat -> unpack_header buf = Raise StructError.
Proof.
  intros Hlen; unfold unpack_header, unpack_from.
  destruct buf as [|s1 [|s2 [|s3 [|m' [|p1 [|p2 [|c1 [|c2
    [|t1 [|t2 [|t3 [|t4 [|t5 [|t6 [|t7 [|t8 rest]]]]]]]]]]]]]]]];
    try reflexivity.
  cbn [length] in Hlen; lia.
Qed.

Lemma unpack_header_take (buf : bytearray) :
  unpack_header (take 16 buf) = unpack_header buf.
Proof.
  unfold unpack_header, unpack_from.
  destruct buf as [|s1 [|s2 [|s3 [|m' [|p1 [|p2 [|c1 [|c2
    [|t1 [|t2 [|t3 [|t4 [|t5 [|t6 [|t7 [|t8 rest]]]]]]]]]]]]]]]];
    reflexivity.
Qed.

(** X1.  Whatever [pack_header] wrote, [unpack_header] reads back: the sync
    marker and the four fields as given. *)
Theorem pack_unpack_roundtrip (buf out : bytearray) (m p c t : Z) :
  pack_header buf m p c t = Ok out ->
  unpack_header out = Ok (SYNC, m, p, c, t).
Proof.
  intros Hpack.
  apply pack_header_Ok_inv in Hpack as (_ & Hp & Hc & Ht & ->).
  apply unpack_header_bytes; done.
Qed.

Lemma pack_unpack_roundtrip_witness :
  unpack_header
    [163; 157; 122; 7; 1; 0; 0; 9; 0; 0; 0; 0; 0; 0; 0; 5; 42; 43]
  = Ok (SYNC, 7, 256, 9, 5).
Proof.
  apply (pack_unpack_roundtrip (replicate 16 0 ++ [42; 43])).
  vm_compute; reflexivity.
Defined.

(** X2.  Packing the fields that [unpack_header] read from a bytearray that
    starts with the sync marker leaves the buffer as it was, header and
    tail. *)
Theorem unpack_pack_identity (buf : bytearray) (m p c t : Z) :
  is_bytearray buf ->
  unpack_header buf = Ok (SYNC, m, p, c, t) ->
  pack_header buf m p c t = Ok buf.
Proof.
  intros Hb Hu.
  pose proof (unpack_header_Ok_inv _ _ _ _ _ _ Hu)
    as (Hlen & (s1 & s2 & s3 & Hs & Hsync) & _).
  injection Hs as <- <- <-.
  assert (Hsync' : take 3 (take 16 buf) = [163; 157; 122])
    by (rewrite take_take; exact Hsync).
  destruct (header_decompose (take 16 buf)) as
    (m' & p' & c' & t' & Hm & Hp & Hc & Ht & Hhdr & _);
    [rewrite length_take; lia | apply Forall_take, Hb | exact Hsync' |].
  rewrite <- (take_drop 16 buf) in Hu; rewrite Hhdr in Hu.
  rewrite unpack_header_bytes in Hu by done.
  injection Hu as -> -> -> ->.
  rewrite pack_header_ok by done.
  rewrite <- Hhdr, take_drop; reflexivity.
Qed.

Lemma unpack_pack_identity_witness :
  pack_header
    [163; 157; 122; 7; 1; 0; 0; 9; 0; 0; 0; 0; 0; 0; 0; 5; 42; 43]
    7 256 9 5
  = Ok [163; 157; 122; 7; 1; 0; 0; 9; 0; 0; 0; 0; 0; 0; 0; 5; 42; 43].
Proof.
  apply unpack_pack_identity.
  - repeat constructor; unfold is_byte; lia.
  - vm_compute; reflexivity.
Defined.

(** X3.  [pack_header] keeps the buffer's length and everything from offset
    16 on; the sixteen bytes it writes start with the sync marker and are
    all bytes. *)
Theorem pack_header_frame (buf out : bytearray) (m p c t : Z) :
  pack_header buf m p c t = Ok out ->
  length out = length buf
  /\ drop 16 out = drop 16 buf
  /\ take 3 out = [0xA3; 0x9D; 0x7A]
  /\ is_bytearray (take 16 out).
Proof.
  intros Hpack.
  assert (Hlen : (16 <= length buf)%nat).
  { unfold pack_header, pack_into, SYNC in Hpack.
    destruct (Nat.ltb_spec (length buf) 16); [discriminate | lia]. }
  apply pack_header_Ok_inv in Hpack as (Hm & _ & _ & _ & ->).
  pose proof (header_bytes_length m p c t) as HL.
  split; [rewrite length_app, length_drop, HL; lia|].
  split; [rewrite drop_app_length' by exact HL; reflexivity|].
  split; [reflexivity|].
  rewrite take_app_length' by exact HL.
  apply header_bytes_is_bytearray, Hm.
Qed.

Lemma pack_header_frame_witness :
  let out :=
    [163; 157; 122; 7; 1; 0; 0; 9; 0; 0; 0; 0; 0; 0; 0; 5; 42; 43] in
  length out = 18%nat
  /\ drop 16 out = [42; 43]
  /\ take 3 out = [0xA3; 0x9D; 0x7A]
  /\ is_bytearray (take 16 out).
Proof.
  apply (pack_header_frame (replicate 16 1 ++ [42; 43]) _ 7 256 9 5).
  vm_compute; reflexivity.
Defined.

(** X4.  With a binary64 timestamp, [pack_header] raises [struct.error],
    and nothing else, exactly when the buffer is shorter than sixteen bytes
    or an integer field is outside its format: msgtype outside 0..255,
    pktsize or checksum outside 0..65535. *)
Theorem pack_header_errors (buf : bytearray) (m p c t : Z) :
  is_float64 t ->
  (forall e, pack_header buf m p c t = Raise e -> e = StructError)
  /\ (pack_header buf m p c t = Raise StructError
      <-> (length buf < 16)%nat \/ ~ is_byte m \/ ~ 0 <= p < 65536
          \/ ~ 0 <= c < 65536).
Proof.
  intros Ht.
  split; [intros e; apply pack_header_raises|].
  split.
  - intros Hraise.
    destruct (decide (length buf < 16)%nat) as [|Hlen]; [left; done|].
    right.
    destruct (decide (is_byte m)) as [Hm|]; [|left; done]; right.
    destruct (decide (0 <= p < 65536)) as [Hp|]; [|left; done]; right.
    intros Hc.
    rewrite pack_header_ok in Hraise by (done || lia); discriminate.
  - intros Hbad.
    destruct (pack_header buf m p c t) as [out|e] eqn:Hpack.
    + exfalso.
      assert (Hlen : (16 <= length buf)%nat).
      { unfold pack_header, pack_into, SYNC in Hpack.
        destruct (Nat.ltb_spec (length buf) 16); [discriminate | lia]. }
      apply pack_header_Ok_inv in Hpack as (Hm & Hp & Hc & _ & _).
      destruct Hbad as [?|[?|[?|?]]]; [lia|done..].
    + apply pack_header_raises in Hpack; subst e; reflexivity.
Qed.

Lemma pack_header_errors_witness :
  (forall e, pack_header (replicate 16 0) 1 65536 0 0 = Raise e ->
             e = StructError)
  /\ (pack_header (replicate 16 0) 1 65536 0 0 = Raise StructError
      <-> (length (replicate 16 0) < 16)%nat \/ ~ is_byte 1
          \/ ~ 0 <= 65536 < 65536 \/ ~ 0 <= 0 < 65536).
Proof.
  apply pack_header_errors; unfold is_float64; lia.
Defined.

(** X5.  [unpack_header] returns exactly when the buffer holds at least
    sixteen items and raises [struct.error] otherwise; it reads the first
    sixteen items only; and from a bytearray every field it returns is within
    its format's range. *)
Theorem unpack_header_behaviour (buf : bytearray) :
  ((exists fields, unpack_header buf = Ok fields) <-> (16 <= length buf)%nat)
  /\ ((length buf < 16)%nat -> unpack_header buf = Raise StructError)
  /\ (forall rest, (16 <= length buf)%nat ->
                   unpack_header (buf ++ rest) = unpack_header buf)
  /\ (forall s1 s2 s3 m p c t,
         is_bytearray buf ->
         unpack_header buf = Ok ((s1, s2, s3), m, p, c, t) ->
         is_byte s1 /\ is_byte s2 /\ is_byte s3 /\ is_byte m
         /\ 0 <= p < 65536 /\ 0 <= c < 65536 /\ is_float64 t).
Proof.
  split; [split|split; [|split]].
  - intros [[[[[sync m] p] c] t] Hu].
    apply unpack_header_Ok_inv in Hu as [Hlen _]; exact Hlen.
  - intros Hlen.
    destruct (unpack_header buf) as [fields|e] eqn:Hu; [eexists; done|].
    exfalso; unfold unpack_header, unpack_from in Hu.
    destruct buf as [|s1 [|s2 [|s3 [|m' [|p1 [|p2 [|c1 [|c2
      [|t1 [|t2 [|t3 [|t4 [|t5 [|t6 [|t7 [|t8 rest]]]]]]]]]]]]]]]];
      cbn [length] in Hlen; try lia.
    discriminate Hu.
  - apply unpack_header_short.
  - intros rest Hlen.
    rewrite <- (unpack_header_take (buf ++ rest)), <- (unpack_header_take buf).
    rewrite take_app_le by exact Hlen; reflexivity.
  - intros s1 s2 s3 m p c t Hb Hu.
    pose proof (unpack_header_Ok_inv _ _ _ _ _ _ Hu)
      as (Hlen & (a1 & a2 & a3 & Hs & Hsync) & Hm & -> & -> & ->).
    injection Hs as <- <- <-.
    assert (Hpart : forall n k, is_bytearray (take n (drop k buf)))
      by (intros; apply Forall_take, Forall_drop, Hb).
    assert (Hin : forall i x, buf !! i = Some x -> is_byte x)
      by (intros i x; apply (proj1 (Forall_lookup _ _) Hb)).
    assert (H3 : forall i x, take 3 buf !! i = Some x -> is_byte x).
    { intros i x Hi; apply lookup_take_Some in Hi as [Hi _]; eauto. }
    rewrite Hsync in H3.
    split; [apply (H3 0%nat); reflexivity|].
    split; [apply (H3 1%nat); reflexivity|].
    split; [apply (H3 2%nat); reflexivity|].
    split; [apply (Hin 3%nat), Hm|].
    pose proof (be_int_range _ (Hpart 2%nat 4%nat)) as Hp.
    pose proof (be_int_range _ (Hpart 2%nat 6%nat)) as Hc.
    pose proof (be_int_range _ (Hpart 8%nat 8%nat)) as Ht.
    rewrite length_take, length_drop in Hp, Hc, Ht.
    replace (2 `min` (length buf - 4))%nat with 2%nat in Hp by lia.
    replace (2 `min` (length buf - 6))%nat with 2%nat in Hc by lia.
    replace (8 `min` (length buf - 8))%nat with 8%nat in Ht by lia.
    unfold is_float64; repeat split; lia.
Qed.

Lemma unpack_header_behaviour_witness :
  unpack_header [163; 157; 122] = Raise StructError
  /\ unpack_header (replicate 16 255 ++ [1; 2]) = unpack_header (replicate 16 255)
  /\ is_float64 (be_int (replicate 8 255)).
Proof.
  destruct (unpack_header_behaviour [163; 157; 122]) as (_ & Hshort & _).
  destruct (unpack_header_behaviour (replicate 16 255))
    as (_ & _ & Htail & Hrange).
  split; [apply Hshort; simpl; lia|].
  split; [apply Htail; simpl; lia|].
  apply (Hrange 255 255 255 255 65535 65535 (be_int (replicate 8 255))).
  - apply Forall_replicate; unfold is_byte; lia.
  - vm_compute; reflexivity.
Defined.

End HeaderCodecProperties.

(** ** Further properties of the checksum *)

Section ChecksumProperties.

(** X6.  The seed enters the fold by XOR: the checksum with seed [s] is the
    checksum with seed 0 XOR [s]; in particular folding any sequence twice
    gives the seed back. *)
Theorem checksum_seed_xor (l : list Z) (s : Z) :
  calculateChecksum l s = Z.lxor (calculateChecksum l 0) s
  /\ calculateChecksum (l ++ l) s = s
  /\ calculateChecksum l (calculateChecksum l s) = s.
Proof.
  assert (H1 : forall s', calculateChecksum l s'
                          = Z.lxor (calculateChecksum l 0) s').
  { intros s'; rewrite <- calculateChecksum_seed, Z.lxor_0_l; reflexivity. }
  assert (H2 : calculateChecksum l (calculateChecksum l s) = s).
  { rewrite (H1 (calculateChecksum l s)), (H1 s).
    rewrite <- Z.lxor_assoc, Z.lxor_nilpotent; apply Z.lxor_0_l. }
  split; [apply H1|].
  split; [rewrite calculateChecksum_app; exact H2 | exact H2].
Qed.

(** X7.  The checksum does not depend on the order of the items. *)
Theorem checksum_permutation (l l' : list Z) (s : Z) :
  l ≡ₚ l' -> calculateChecksum l s = calculateChecksum l' s.
Proof.
  intros Hperm; revert s.
  induction Hperm as [|x l l' _ IH|x y l|l l' l'' _ IH1 _ IH2]; intros s.
  - reflexivity.
  - rewrite !calculateChecksum_cons; apply IH.
  - rewrite !calculateChecksum_cons; f_equal.
    rewrite !Z.lxor_assoc; f_equal; apply Z.lxor_comm.
  - rewrite IH1; apply IH2.
Qed.

Lemma checksum_permutation_witness :
  calculateChecksum [1; 2; 3] 9 = calculateChecksum [3; 1; 2] 9.
Proof.
  apply checksum_permutation.
  change [3; 1; 2] with ([3] ++ [1; 2]).
  change [1; 2; 3] with ([1; 2] ++ [3]).
  apply Permutation_app_comm.
Defined.

End ChecksumProperties.

(** ** Further properties of the builder *)

Section BuilderProperties.

Lemma makepacket_raises (m t : Z) (d : bytearray) (e : exception) :
  makepacket m t d = Raise e -> e = StructError.
Proof.
  unfold makepacket; cbv zeta.
  destruct (pack_header _ m _ 0 t) as [pkt1|e1] eqn:E1;
    cbn [mbind result_bind].
  - destruct (pack_header (take _ pkt1 ++ d) m _ _ t) as [pkt2|e2] eqn:E2;
      cbn [mbind result_bind]; [intros H; discriminate H|].
    intros [= <-]; eapply pack_header_raises, E2.
  - intros [= <-]; eapply pack_header_raises, E1.
Qed.

Lemma be_bytes_2_byte (c : Z) : is_byte c -> be_bytes 2 c = [0; c].
Proof.
  unfold is_byte; intros Hc; cbn [be_bytes app].
  rewrite (Z.div_small c 256), (Z.mod_small c 256) by lia; reflexivity.
Qed.

(** With an eight-bit checksum the header image is the zero-checksum image
    with the checksum XOR-ed into offset 7. *)
Lemma header_bytes_checksum_byte (m p c t : Z) :
  is_byte c ->
  header_bytes m p c t
  = alter (fun b => Z.lxor b c) 7%nat (header_bytes m p 0 t).
Proof.
  intros Hc; unfold header_bytes.
  rewrite (be_bytes_2_byte c Hc).
  change (be_bytes 2 0) with [0; 0].
  cbn [be_bytes app alter list_alter].
  rewrite Z.lxor_0_l; reflexivity.
Qed.

Lemma header_checksum_is_byte (m p t : Z) (d : bytearray) :
  is_byte m -> is_bytearray d ->
  is_byte (calculateChecksum (header_bytes m p 0 t ++ d) 0).
Proof.
  intros Hm Hd; apply calculateChecksum_is_byte; [unfold is_byte; lia|].
  apply Forall_app; split; [|exact Hd].
  apply header_bytes_is_bytearray, Hm.
Qed.

(** X8.  For a binary64 timestamp and a bytearray payload, [makepacket]
    returns exactly when msgtype is in 0..255 and the payload has at most
    65519 bytes, and otherwise raises [struct.error] and nothing else.  The
    packet it returns is a bytearray of 16 + len(data) bytes: the sync
    marker, msgtype at offset 3, and the payload unchanged from offset 16. *)
Theorem makepacket_behaviour (m t : Z) (d : bytearray) :
  is_float64 t -> is_bytearray d ->
  ((exists pkt, makepacket m t d = Ok pkt)
   <-> is_byte m /\ Z.of_nat (length d) <= 65519)
  /\ (forall e, makepacket m t d = Raise e -> e = StructError)
  /\ (forall pkt,
         makepacket m t d = Ok pkt ->
         length pkt = (16 + length d)%nat
         /\ take 3 pkt = [0xA3; 0x9D; 0x7A]
         /\ pkt !! 3%nat = Some m
         /\ drop 16 pkt = d
         /\ is_bytearray pkt).
Proof.
  intros Ht Hd.
  split; [split|split].
  - intros [pkt Hmk].
    apply makepacket_Ok_inv in Hmk as (Hm & _ & Hlen & _); done.
  - intros [Hm Hlen]; eexists; apply makepacket_ok; done.
  - apply makepacket_raises.
  - intros pkt Hmk.
    apply makepacket_Ok_inv in Hmk as (Hm & _ & Hlen & _ & ->).
    pose proof (header_bytes_length m (HEADER_SIZE + Z.of_nat (length d))
                  (calculateChecksum
                     (header_bytes m (HEADER_SIZE + Z.of_nat (length d)) 0 t
                      ++ d) 0) t) as HL.
    split; [rewrite length_app, HL; reflexivity|].
    split; [reflexivity|].
    split; [reflexivity|].
    split; [rewrite drop_app_length' by exact HL; reflexivity|].
    apply Forall_app; split; [|exact Hd].
    apply header_bytes_is_bytearray, Hm.
Qed.

Lemma makepacket_behaviour_witness :
  ((exists pkt, makepacket 256 0 [65; 66] = Ok pkt)
   <-> is_byte 256 /\ Z.of_nat (length [65; 66]) <= 65519)
  /\ (forall e, makepacket 256 0 [65; 66] = Raise e -> e = StructError)
  /\ (forall pkt,
         makepacket 256 0 [65; 66] = Ok pkt ->
         length pkt = (16 + length [65; 66])%nat
         /\ take 3 pkt = [0xA3; 0x9D; 0x7A]
         /\ pkt !! 3%nat = Some 256
         /\ drop 16 pkt = [65; 66]
         /\ is_bytearray pkt).
Proof.
  apply makepacket_behaviour.
  - unfold is_float64; lia.
  - repeat constructor; unfold is_byte; lia.
Defined.

(** X9.  The XOR of all the bytes of a packet [makepacket] returned,
    checksum field included, is zero. *)
Theorem built_packet_xor_zero (m t : Z) (d pkt : bytearray) :
  is_bytearray d ->
  makepacket m t d = Ok pkt ->
  calculateChecksum pkt 0 = 0.
Proof.
  intros Hd Hmk.
  apply makepacket_Ok_inv in Hmk as (Hm & _ & _ & _ & ->).
  set (p := HEADER_SIZE + Z.of_nat (length d)).
  set (c := calculateChecksum (header_bytes m p 0 t ++ d) 0).
  pose proof (header_checksum_is_byte m p t d Hm Hd) as Hc; fold c in Hc.
  rewrite (header_bytes_checksum_byte m p c t Hc).
  rewrite <- alter_app_l by (rewrite header_bytes_length; lia).
  rewrite calculateChecksum_alter
    by (rewrite length_app, header_bytes_length; lia).
  fold c; apply Z.lxor_nilpotent.
Qed.

Lemma built_packet_xor_zero_witness :
  calculateChecksum
    [163; 157; 122; 1; 0; 18; 0; 205; 64; 147; 74; 0; 0; 0; 0; 0; 65; 66] 0
  = 0.
Proof.
  apply (built_packet_xor_zero 1 0x40934A0000000000 [65; 66]).
  - repeat constructor; unfold is_byte; lia.
  - vm_compute; reflexivity.
Defined.

(** X10.  [makepacket] is injective: a packet determines the message type,
    the timestamp and the payload it was built from. *)
Theorem makepacket_injective (m m' t t' : Z) (d d' pkt : bytearray) :
  makepacket m t d = Ok pkt ->
  makepacket m' t' d' = Ok pkt ->
  m = m' /\ t = t' /\ d = d'.
Proof.
  intros H1 H2.
  apply makepacket_Ok_inv in H1 as (_ & Ht & Hlen & Hc & Hpkt).
  apply makepacket_Ok_inv in H2 as (_ & Ht' & Hlen' & Hc' & Hpkt').
  set (p := HEADER_SIZE + Z.of_nat (length d)) in *.
  set (c := calculateChecksum (header_bytes m p 0 t ++ d) 0) in *.
  set (p' := HEADER_SIZE + Z.of_nat (length d')) in *.
  set (c' := calculateChecksum (header_bytes m' p' 0 t' ++ d') 0) in *.
  rewrite Hpkt in Hpkt'.
  apply app_inj_1 in Hpkt' as [Hhdr Hd];
    [|rewrite !header_bytes_length; reflexivity].
  assert (Hu : unpack_header (header_bytes m p c t ++ [])
               = Ok (SYNC, m, p, c, t)).
  { apply unpack_header_bytes; [unfold p, HEADER_SIZE; lia|done|done]. }
  assert (Hu' : unpack_header (header_bytes m' p' c' t' ++ [])
                = Ok (SYNC, m', p', c', t')).
  { apply unpack_header_bytes; [unfold p', HEADER_SIZE; lia|done|done]. }
  rewrite Hhdr, Hu' in Hu.
  injection Hu as -> _ _ ->.
  repeat split; exact Hd.
Qed.

Lemma makepacket_injective_witness :
  1 = 1 /\ 0x40934A0000000000 = 0x40934A0000000000
  /\ [65; 66] = [65; 66].
Proof.
  apply (makepacket_injective 1 1 _ _ _ _
           [163; 157; 122; 1; 0; 18; 0; 205; 64; 147; 74; 0; 0; 0; 0; 0;
            65; 66]);
    vm_compute; reflexivity.
Defined.

End BuilderProperties.

(** ** Further properties of the receiver *)

Section ReceiverProperties.

Lemma sync_eqb_eq (a b : Z * Z * Z) : sync_eqb a b = true -> a = b.
Proof.
  destruct a as [[a1 a2] a3], b as [[b1 b2] b3]; unfold sync_eqb.
  intros H; apply andb_prop in H as [H H3]; apply andb_prop in H as [H1 H2].
  apply Z.eqb_eq in H1, H2, H3; subst; reflexivity.
Qed.

(** The constructor returns only on what [unpack_header] read, and only
    with the sync marker in front. *)
Lemma init_Ok_unpack (hdr : bytearray) (self : ReceivedPacket) :
  ReceivedPacket_init hdr = Ok self ->
  unpack_header hdr
  = Ok (SYNC, msgtype self, pktsize self, checksum self, timestamp self).
Proof.
  unfold ReceivedPacket_init; intros Hinit.
  destruct (negb (Z.of_nat (length hdr) =? HEADER_SIZE)); [discriminate|].
  destruct (unpack_header hdr) as [[[[[sync m] p] c] t]|e];
    cbn [mbind result_bind] in Hinit; [|discriminate].
  destruct (sync_eqb sync SYNC) eqn:Es; cbn [negb] in Hinit; [|discriminate].
  apply sync_eqb_eq in Es; subst sync.
  destruct (pack_header hdr m p 0 t) as [out|e];
    cbn [mbind result_bind] in Hinit; [|discriminate].
  injection Hinit as <-; reflexivity.
Qed.

Lemma init_Ok_sync (hdr : bytearray) (self : ReceivedPacket) :
  ReceivedPacket_init hdr = Ok self -> take 3 hdr = [163; 157; 122].
Proof.
  intros Hinit; apply init_Ok_unpack in Hinit.
  apply unpack_header_Ok_inv in Hinit
    as (_ & (s1 & s2 & s3 & Hs & Hsync) & _).
  injection Hs as <- <- <-; exact Hsync.
Qed.

Lemma calculateChecksum_from_zero (l : list Z) (s : Z) :
  calculateChecksum l s = Z.lxor (calculateChecksum l 0) s.
Proof. rewrite <- calculateChecksum_seed, Z.lxor_0_l; reflexivity. Qed.

(** X11.  On a bytearray the constructor has three outcomes and no other:
    [HeaderSizeError] when the length is not 16, [SyncError] when the length
    is 16 and the first three bytes are not the sync marker, an instance
    otherwise.  It raises neither [struct.error] nor [ChecksumError]. *)
Theorem constructor_outcomes (hdr : bytearray) :
  is_bytearray hdr ->
  ((length hdr <> 16%nat
    /\ ReceivedPacket_init hdr
       = Raise (HeaderSizeError (Z.of_nat (length hdr))))
   \/ (length hdr = 16%nat /\ take 3 hdr <> [0xA3; 0x9D; 0x7A]
       /\ exists s1 s2 s3,
            take 3 hdr = [s1; s2; s3]
            /\ ReceivedPacket_init hdr = Raise (SyncError (s1, s2, s3)))
   \/ (length hdr = 16%nat /\ take 3 hdr = [0xA3; 0x9D; 0x7A]
       /\ exists self, ReceivedPacket_init hdr = Ok self))
  /\ ReceivedPacket_init hdr <> Raise StructError
  /\ (forall rx, ReceivedPacket_init hdr <> Raise (ChecksumError rx)).
Proof.
  intros Hb.
  assert (Hcases :
    (length hdr <> 16%nat
     /\ ReceivedPacket_init hdr
        = Raise (HeaderSizeError (Z.of_nat (length hdr))))
    \/ (length hdr = 16%nat /\ take 3 hdr <> [0xA3; 0x9D; 0x7A]
        /\ exists s1 s2 s3,
             take 3 hdr = [s1; s2; s3]
             /\ ReceivedPacket_init hdr = Raise (SyncError (s1, s2, s3)))
    \/ (length hdr = 16%nat /\ take 3 hdr = [0xA3; 0x9D; 0x7A]
        /\ exists self, ReceivedPacket_init hdr = Ok self)).
  { destruct (decide (length hdr = 16%nat)) as [Hlen|Hlen];
      [right|left; split; [exact Hlen | apply init_wrong_size, Hlen]].
    destruct (decide (take 3 hdr = [0xA3; 0x9D; 0x7A])) as [Hsync|Hsync].
    - right; split; [exact Hlen|]; split; [exact Hsync|].
      destruct (init_ok hdr Hlen Hb Hsync) as (m & p & c & t & H).
      eexists; apply H.
    - left; split; [exact Hlen|]; split; [exact Hsync|].
      destruct hdr as [|s1 [|s2 [|s3 rest]]]; try discriminate.
      exists s1, s2, s3; split; [reflexivity|].
      apply init_bad_sync; [simpl in Hlen; lia|].
      intros [= -> -> ->]; apply Hsync; reflexivity. }
  split; [exact Hcases|].
  split; [|intros rx];
    destruct Hcases as [[_ ->]|[(_ & _ & s1 & s2 & s3 & _ & ->)
                                |(_ & _ & self & ->)]]; discriminate.
Qed.

Lemma constructor_outcomes_witness :
  ReceivedPacket_init (replicate 16 0) <> Raise StructError
  /\ (forall rx, ReceivedPacket_init (replicate 16 0)
                 <> Raise (ChecksumError rx)).
Proof.
  apply (constructor_outcomes (replicate 16 0)).
  apply Forall_replicate; unfold is_byte; lia.
Defined.

(** X12.  When the constructor returns, the instance holds the fields
    [unpack_header] reads from the buffer; msgtype is in 0..255, pktsize in
    0..65535, the timestamp a binary64 value, [datasize] is [pktsize - 16]
    and so lies between -16 and 65519, and [data] is not set. *)
Theorem constructor_fields (hdr : bytearray) (self : ReceivedPacket) :
  ReceivedPacket_init hdr = Ok self ->
  unpack_header hdr
  = Ok (SYNC, msgtype self, pktsize self, checksum self, timestamp self)
  /\ is_byte (msgtype self)
  /\ 0 <= pktsize self < 65536
  /\ is_float64 (timestamp self)
  /\ datasize self = pktsize self - HEADER_SIZE
  /\ -16 <= datasize self <= 65519
  /\ data self = None.
Proof.
  intros Hinit.
  split; [apply init_Ok_unpack, Hinit|].
  apply init_Ok_inv in Hinit as (_ & m & p & c & t & Hm & Hp & Ht & ->).
  cbn [msgtype pktsize timestamp datasize data].
  split; [exact Hm|]; split; [exact Hp|]; split; [exact Ht|].
  split; [reflexivity|].
  split; [unfold HEADER_SIZE; lia | reflexivity].
Qed.

Lemma constructor_fields_witness :
  let self :=
    mkReceivedPacket
      [163; 157; 122; 1; 0; 5; 0; 0; 0; 0; 0; 0; 0; 0; 0; 0]
      1 5 513 0 (-11) None in
  unpack_header [163; 157; 122; 1; 0; 5; 2; 1; 0; 0; 0; 0; 0; 0; 0; 0]
  = Ok (SYNC, msgtype self, pktsize self, checksum self, timestamp self)
  /\ is_byte (msgtype self)
  /\ 0 <= pktsize self < 65536
  /\ is_float64 (timestamp self)
  /\ datasize self = pktsize self - HEADER_SIZE
  /\ -16 <= datasize self <= 65519
  /\ data self = None.
Proof.
  apply constructor_fields; vm_compute; reflexivity.
Defined.

(** X13.  [validate] changes the [data] attribute and nothing else, so a
    second call behaves as on the instance the constructor returned: the
    verdict depends on the header, the received checksum and the payload of
    that call only. *)
Theorem validate_frame_and_retry (self : ReceivedPacket) (d1 d2 : bytearray) :
  validate (fst (validate self d1)) d2 = validate self d2
  /\ header (fst (validate self d1)) = header self
  /\ msgtype (fst (validate self d1)) = msgtype self
  /\ pktsize (fst (validate self d1)) = pktsize self
  /\ checksum (fst (validate self d1)) = checksum self
  /\ timestamp (fst (validate self d1)) = timestamp self
  /\ datasize (fst (validate self d1)) = datasize self
  /\ (forall e, snd (validate self d1) = Raise e ->
                exists rx, e = ChecksumError rx).
Proof.
  rewrite (validate_unfold self d1); cbn [fst snd].
  split; [rewrite !validate_unfold; destruct self; reflexivity|].
  do 6 (split; [destruct self; reflexivity|]).
  intros e; cbv zeta.
  match goal with |- context [?a =? ?b] => destruct (a =? b) end;
    [discriminate|].
  intros [= <-]; eexists; reflexivity.
Qed.

(** X14.  [validate] does not look at [datasize] or at the payload's
    length: appending to the payload any bytes whose XOR is zero (a byte
    twice, say) leaves the verdict as it was. *)
Theorem validate_ignores_length (self : ReceivedPacket) (d e : bytearray) :
  calculateChecksum e 0 = 0 ->
  snd (validate self (d ++ e)) = snd (validate self d).
Proof.
  intros He; rewrite !validate_unfold; cbn [snd]; cbv zeta.
  rewrite app_assoc, (calculateChecksum_app (header self ++ d) e).
  rewrite calculateChecksum_from_zero, He, Z.lxor_0_l; reflexivity.
Qed.

Lemma validate_ignores_length_witness :
  let self :=
    mkReceivedPacket
      [163; 157; 122; 1; 0; 18; 0; 0; 64; 147; 74; 0; 0; 0; 0; 0]
      1 18 205 0x40934A0000000000 2 None in
  snd (validate self ([65; 66] ++ [7; 7])) = snd (validate self [65; 66]).
Proof.
  intros self; apply validate_ignores_length; reflexivity.
Defined.

(** The receiver on the header of a built packet and any payload. *)
Lemma receive_built_payload (m t : Z) (d pkt d' : bytearray) :
  makepacket m t d = Ok pkt ->
  (calculateChecksum d' 0 = calculateChecksum d 0 ->
   exists self,
     receive (take 16 pkt) d' = Ok self
     /\ data self = Some d' /\ msgtype self = m /\ timestamp self = t
     /\ datasize self = Z.of_nat (length d))
  /\ (calculateChecksum d' 0 <> calculateChecksum d 0 ->
      exists rx, receive (take 16 pkt) d' = Raise (ChecksumError rx)).
Proof.
  intros Hmk.
  apply makepacket_Ok_inv in Hmk as (Hm & Ht & Hlen & Hc & ->).
  set (p := HEADER_SIZE + Z.of_nat (length d)) in *.
  set (c := calculateChecksum (header_bytes m p 0 t ++ d) 0) in *.
  assert (Hp : 0 <= p < 65536) by (unfold p, HEADER_SIZE; lia).
  rewrite take_app_length' by (rewrite header_bytes_length; reflexivity).
  rewrite receive_header_bytes by done; cbv zeta.
  assert (Hrx : calculateChecksum (header_bytes m p 0 t ++ d') 0 = c
                <-> calculateChecksum d' 0 = calculateChecksum d 0).
  { unfold c; rewrite !calculateChecksum_app.
    rewrite (calculateChecksum_from_zero d'), (calculateChecksum_from_zero d).
    split; [|intros ->; reflexivity].
    intros H; apply (f_equal (fun v =>
      Z.lxor v (calculateChecksum (header_bytes m p 0 t) 0))) in H.
    rewrite !Z.lxor_assoc, !Z.lxor_nilpotent, !Z.lxor_0_r in H; exact H. }
  split; intros Hxor.
  - apply Hrx in Hxor; rewrite Hxor, Z.eqb_refl.
    eexists; split; [reflexivity|]; cbn [data msgtype timestamp datasize].
    repeat split; unfold p; lia.
  - destruct (Z.eqb_spec (calculateChecksum (header_bytes m p 0 t ++ d') 0) c)
      as [Heq|_]; [apply Hrx in Heq; contradiction|].
    eexists; reflexivity.
Qed.

(** X15.  The header of a built packet accepts a payload exactly when the
    payload's XOR equals that of the original payload; otherwise [validate]
    raises [ChecksumError].  An accepted payload becomes [data], whatever
    its length. *)
Theorem payload_acceptance (m t : Z) (d pkt d' : bytearray) :
  makepacket m t d = Ok pkt ->
  ((exists self, receive (take 16 pkt) d' = Ok self)
   <-> calculateChecksum d' 0 = calculateChecksum d 0)
  /\ (forall self, receive (take 16 pkt) d' = Ok self -> data self = Some d')
  /\ (forall e, receive (take 16 pkt) d' = Raise e ->
                exists rx, e = ChecksumError rx).
Proof.
  intros Hmk.
  destruct (receive_built_payload m t d pkt d' Hmk) as [Hyes Hno].
  destruct (Z.eq_dec (calculateChecksum d' 0) (calculateChecksum d 0))
    as [Heq|Hne].
  - destruct (Hyes Heq) as (self & Hrecv & Hdata & _).
    split; [split; [intros _; exact Heq | intros _; eexists; exact Hrecv]|].
    rewrite Hrecv; split; [intros self' [= <-]; exact Hdata|].
    intros e He; discriminate He.
  - destruct (Hno Hne) as (rx & Hrecv).
    rewrite Hrecv.
    split; [split; [intros [self Hs]; discriminate Hs | contradiction]|].
    split; [intros self Hs; discriminate Hs|].
    intros e [= <-]; eexists; reflexivity.
Qed.

Lemma payload_acceptance_witness :
  let hdr := [163; 157; 122; 1; 0; 18; 0; 205; 64; 147; 74; 0; 0; 0; 0; 0] in
  ((exists self, receive (take 16 (hdr ++ [65; 66])) [3] = Ok self)
   <-> calculateChecksum [3] 0 = calculateChecksum [65; 66] 0)
  /\ (forall self, receive (take 16 (hdr ++ [65; 66])) [3] = Ok self ->
                   data self = Some [3])
  /\ (forall e, receive (take 16 (hdr ++ [65; 66])) [3] = Raise e ->
                exists rx, e = ChecksumError rx).
Proof.
  intros hdr.
  apply (payload_acceptance 1 0x40934A0000000000).
  vm_compute; reflexivity.
Defined.

(** X16.  Reordering the payload goes undetected: the header of a built
    packet accepts every permutation of its payload. *)
Theorem permuted_payload_accepted (m t : Z) (d pkt d' : bytearray) :
  makepacket m t d = Ok pkt ->
  d ≡ₚ d' ->
  exists self,
    receive (take 16 pkt) d' = Ok self
    /\ data self = Some d' /\ msgtype self = m /\ timestamp self = t.
Proof.
  intros Hmk Hperm.
  destruct (receive_built_payload m t d pkt d' Hmk) as [Hyes _].
  destruct Hyes as (self & Hrecv & Hdata & Hm & Ht & _).
  - clear Hmk; revert Hperm; generalize 0.
    intros s Hperm; symmetry; revert s.
    induction Hperm as [|x l l' _ IH|x y l|l l' l'' _ IH1 _ IH2]; intros s.
    + reflexivity.
    + rewrite !calculateChecksum_cons; apply IH.
    + rewrite !calculateChecksum_cons; f_equal.
      rewrite !Z.lxor_assoc; f_equal; apply Z.lxor_comm.
    + rewrite IH1; apply IH2.
  - exists self; repeat split; assumption.
Qed.

Lemma permuted_payload_accepted_witness :
  exists self,
    receive
      (take 16
         [163; 157; 122; 1; 0; 18; 0; 205; 64; 147; 74; 0; 0; 0; 0; 0;
          65; 66])
      [66; 65]
    = Ok self
    /\ data self = Some [66; 65] /\ msgtype self = 1
    /\ timestamp self = 0x40934A0000000000.
Proof.
  apply (permuted_payload_accepted 1 0x40934A0000000000 [65; 66]).
  - vm_compute; reflexivity.
  - apply perm_swap.
Defined.

(** X17.  Two flips of the same bit go undetected: flipping bit [k] in two
    different payload bytes of a built packet gives a packet the receiver
    accepts, with a payload that differs from the original. *)
Theorem double_flip_accepted
    (m t : Z) (d pkt : bytearray) (i j : nat) (k : Z) :
  makepacket m t d = Ok pkt ->
  (16 <= i)%nat -> (i < j)%nat -> (j < length pkt)%nat -> 0 <= k < 8 ->
  let pkt' := flip_bit j k (flip_bit i k pkt) in
  exists self,
    receive (take 16 pkt') (drop 16 pkt') = Ok self
    /\ data self = Some (drop 16 pkt')
    /\ drop 16 pkt' <> d.
Proof.
  intros Hmk Hi Hij Hj Hk pkt'.
  pose proof (makepacket_Ok_inv _ _ _ _ Hmk) as (_ & _ & _ & _ & Hpkt).
  set (H := header_bytes m (HEADER_SIZE + Z.of_nat (length d))
              (calculateChecksum
                 (header_bytes m (HEADER_SIZE + Z.of_nat (length d)) 0 t
                  ++ d) 0) t) in Hpkt.
  assert (HL : length H = 16%nat) by apply header_bytes_length.
  set (x := Z.shiftl 1 k).
  assert (Hx0 : x <> 0) by (apply bit_mask_nonzero; lia).
  assert (Hlen : length pkt = (16 + length d)%nat)
    by (rewrite Hpkt, length_app, HL; reflexivity).
  assert (Hpkt' : pkt' = H ++ alter (fun b => Z.lxor b x) (j - 16)%nat
                           (alter (fun b => Z.lxor b x) (i - 16)%nat d)).
  { unfold pkt', flip_bit; fold x; rewrite Hpkt.
    rewrite !alter_app_r_alt by lia; rewrite HL; reflexivity. }
  assert (Htake : take 16 pkt' = take 16 pkt).
  { rewrite Hpkt', Hpkt, !take_app_length' by exact HL; reflexivity. }
  assert (Hdrop : drop 16 pkt'
                  = alter (fun b => Z.lxor b x) (j - 16)%nat
                      (alter (fun b => Z.lxor b x) (i - 16)%nat d)).
  { rewrite Hpkt', drop_app_length' by exact HL; reflexivity. }
  rewrite Htake, Hdrop.
  destruct (receive_built_payload m t d pkt
              (alter (fun b => Z.lxor b x) (j - 16)%nat
                 (alter (fun b => Z.lxor b x) (i - 16)%nat d)) Hmk)
    as [Hyes _].
  destruct Hyes as (self & Hrecv & Hdata & _).
  - rewrite !calculateChecksum_alter by (rewrite ?length_alter; lia).
    rewrite Z.lxor_assoc, Z.lxor_nilpotent; apply Z.lxor_0_r.
  - exists self; split; [exact Hrecv|]; split; [exact Hdata|].
    intros Heq.
    apply (f_equal (fun l => l !! (i - 16)%nat)) in Heq.
    rewrite list_lookup_alter_ne, list_lookup_alter_eq in Heq by lia.
    destruct (lookup_lt_is_Some_2 d (i - 16)%nat) as [b Hb]; [lia|].
    rewrite Hb in Heq; cbn in Heq; injection Heq as Heq.
    revert Heq; apply lxor_changes, Hx0.
Qed.

Lemma double_flip_accepted_witness :
  let pkt' :=
    flip_bit 17 3
      (flip_bit 16 3
         [163; 157; 122; 1; 0; 18; 0; 205; 64; 147; 74; 0; 0; 0; 0; 0;
          65; 66]) in
  exists self,
    receive (take 16 pkt') (drop 16 pkt') = Ok self
    /\ data self = Some (drop 16 pkt')
    /\ drop 16 pkt' <> [65; 66].
Proof.
  apply (double_flip_accepted 1 0x40934A0000000000 [65; 66]).
  - vm_compute; reflexivity.
  - lia.
  - lia.
  - simpl; lia.
  - lia.
Defined.

(** X18.  A bit flipped in the checksum field (offsets 6 and 7) of a built
    packet is detected: [validate] raises [ChecksumError], carrying the
    checksum the packet was built with. *)
Theorem checksum_field_flip_detected
    (m t : Z) (d pkt : bytearray) (i : nat) (k : Z) :
  is_bytearray d ->
  makepacket m t d = Ok pkt ->
  i = 6%nat \/ i = 7%nat -> 0 <= k < 8 ->
  let pkt' := flip_bit i k pkt in
  receive (take 16 pkt') (drop 16 pkt')
  = Raise (ChecksumError (be_int (take 2 (drop 6 pkt)))).
Proof.
  intros Hd Hmk Hi Hk pkt'; unfold pkt', flip_bit; clear pkt'.
  apply makepacket_Ok_inv in Hmk as (Hm & Ht & Hlen & _ & ->).
  set (p := HEADER_SIZE + Z.of_nat (length d)) in *.
  set (c := calculateChecksum (header_bytes m p 0 t ++ d) 0) in *.
  pose proof (header_checksum_is_byte m p t d Hm Hd) as Hc; fold c in Hc.
  set (x := Z.shiftl 1 k).
  set (f := fun b : Z => Z.lxor b x).
  assert (Hx : is_byte x) by (apply bit_mask_is_byte, Hk).
  assert (Hx0 : x <> 0) by (apply bit_mask_nonzero; lia).
  pose proof (header_bytes_length m p c t) as HL.
  pose proof (header_bytes_is_bytearray m p c t Hm) as HB.
  assert (Hi16 : (i < 16)%nat) by lia.
  rewrite alter_app_l by lia.
  rewrite take_app_length', drop_app_length'
    by (rewrite length_alter; exact HL).
  assert (Hfield : be_int (take 2 (drop 6 (header_bytes m p c t ++ d))) = c).
  { change (take 2 (drop 6 (header_bytes m p c t ++ d)))
      with (be_bytes 2 c).
    apply be_int_be_bytes; unfold is_byte in Hc; lia. }
  assert (Hzero : zero_checksum_field (alter f i (header_bytes m p c t))
                  = header_bytes m p 0 t).
  { rewrite <- (zero_checksum_field_header_bytes m p c t).
    unfold zero_checksum_field.
    rewrite take_alter_ge, drop_alter_lt by lia; reflexivity. }
  assert (Hrx : calculateChecksum
                  (zero_checksum_field (alter f i (header_bytes m p c t))
                   ++ d) 0 = c)
    by (rewrite Hzero; reflexivity).
  rewrite Hfield.
  pose proof (receive_checksum_error (alter f i (header_bytes m p c t)) d)
    as Hraise.
  cbv zeta in Hraise; rewrite Hrx in Hraise; apply Hraise; clear Hraise.
  - rewrite length_alter; exact HL.
  - apply Forall_alter; [exact HB|].
    intros b _ Hbyte; apply lxor_byte; done.
  - rewrite take_alter_ge by lia; reflexivity.
  - unfold header_bytes; rewrite (be_bytes_2_byte c Hc).
    unfold is_byte in Hc, Hx.
    destruct Hi as [-> | ->];
      cbn [be_bytes app alter list_alter take drop firstn skipn];
      unfold be_int, f; cbn [fold_left].
    + rewrite Z.lxor_0_l; lia.
    + assert (Z.lxor c x <> c) by (apply lxor_changes, Hx0); lia.
Qed.

Lemma checksum_field_flip_detected_witness :
  let pkt :=
    [163; 157; 122; 1; 0; 18; 0; 205; 64; 147; 74; 0; 0; 0; 0; 0; 65; 66] in
  receive (take 16 (flip_bit 6 0 pkt)) (drop 16 (flip_bit 6 0 pkt))
  = Raise (ChecksumError (be_int (take 2 (drop 6 pkt)))).
Proof.
  apply (checksum_field_flip_detected 1 0x40934A0000000000 [65; 66]).
  - repeat constructor; unfold is_byte; lia.
  - vm_compute; reflexivity.
  - left; reflexivity.
  - lia.
Defined.

(** X19.  For a sixteen-byte bytearray that starts with the sync marker and
    any payload, the two-phase receive returns exactly when the XOR of the
    header with its checksum field cleared and of the payload equals the
    checksum field; then [data] is the payload and the stored header is the
    cleared one.  Otherwise it raises [ChecksumError] with the computed
    XOR. *)
Theorem receive_acceptance (hdr d : bytearray) :
  length hdr = 16%nat -> is_bytearray hdr ->
  take 3 hdr = [0xA3; 0x9D; 0x7A] ->
  let rx := calculateChecksum (zero_checksum_field hdr ++ d) 0 in
  ((exists self, receive hdr d = Ok self)
   <-> rx = be_int (take 2 (drop 6 hdr)))
  /\ (forall self, receive hdr d = Ok self ->
                   data self = Some d
                   /\ header self = zero_checksum_field hdr)
  /\ (forall e, receive hdr d = Raise e -> e = ChecksumError rx).
Proof.
  intros Hlen Hb Hsync rx.
  destruct (header_decompose hdr Hlen Hb Hsync)
    as (m & p & c & t & Hm & Hp & Hc & Ht & Hhdr & _ & _ & Hck & _).
  rewrite <- Hck; clear Hck; subst hdr.
  rewrite receive_header_bytes by done; cbv zeta.
  unfold rx; rewrite zero_checksum_field_header_bytes.
  destruct (Z.eqb_spec
              (calculateChecksum (header_bytes m p 0 t ++ d) 0) c)
    as [Heq|Hne].
  - split; [split; [intros _; exact Heq | intros _; eexists; reflexivity]|].
    split; [intros self [= <-]; split; reflexivity|].
    intros e He; discriminate He.
  - split; [split; [intros [self Hs]; discriminate Hs | contradiction]|].
    split; [intros self Hs; discriminate Hs|].
    intros e [= <-]; reflexivity.
Qed.

Lemma receive_acceptance_witness :
  let hdr := [163; 157; 122; 1; 0; 18; 0; 205; 64; 147; 74; 0; 0; 0; 0; 0] in
  let rx := calculateChecksum (zero_checksum_field hdr ++ [65; 66]) 0 in
  ((exists self, receive hdr [65; 66] = Ok self)
   <-> rx = be_int (take 2 (drop 6 hdr)))
  /\ (forall self, receive hdr [65; 66] = Ok self ->
                   data self = Some [65; 66]
                   /\ header self = zero_checksum_field hdr)
  /\ (forall e, receive hdr [65; 66] = Raise e -> e = ChecksumError rx).
Proof.
  intros hdr; apply receive_acceptance.
  - reflexivity.
  - repeat constructor; unfold is_byte; lia.
  - reflexivity.
Defined.

(** X20.  Parse/build round trip: when the receiver accepts a bytearray
    packet split after its sixteenth byte and the [pktsize] field equals the
    packet's length, [makepacket] on the parsed message type, timestamp and
    payload returns that same packet. *)
Theorem accepted_packet_rebuilds (pkt : bytearray) (self : ReceivedPacket) :
  is_bytearray pkt ->
  receive (take 16 pkt) (drop 16 pkt) = Ok self ->
  pktsize self = Z.of_nat (length pkt) ->
  makepacket (msgtype self) (timestamp self) (drop 16 pkt) = Ok pkt.
Proof.
  intros Hb Hrecv Hsize.
  assert (Hinit : exists self0, ReceivedPacket_init (take 16 pkt) = Ok self0).
  { unfold receive in Hrecv.
    destruct (ReceivedPacket_init (take 16 pkt)) as [self0|e];
      [eexists; reflexivity | discriminate Hrecv]. }
  destruct Hinit as [self0 Hinit].
  pose proof (init_Ok_sync _ _ Hinit) as Hsync.
  apply init_Ok_inv in Hinit as [Hlen _].
  destruct (header_decompose (take 16 pkt) Hlen (Forall_take _ _ _ Hb) Hsync)
    as (m & p & c & t & Hm & Hp & Hc & Ht & Hhdr & _).
  rewrite Hhdr, receive_header_bytes in Hrecv by done; cbv zeta in Hrecv.
  destruct (Z.eqb_spec
              (calculateChecksum (header_bytes m p 0 t ++ drop 16 pkt) 0) c)
    as [Hck|_]; [|discriminate Hrecv].
  injection Hrecv as <-; cbn [msgtype timestamp pktsize] in *.
  assert (Hd : Z.of_nat (length (drop 16 pkt)) = p - 16).
  { rewrite length_take in Hlen; rewrite length_drop; lia. }
  pose proof (makepacket_ok m t (drop 16 pkt) Hm Ht (Forall_drop _ _ _ Hb)
                ltac:(lia)) as Hmk.
  cbv zeta in Hmk; rewrite Hmk.
  replace (HEADER_SIZE + Z.of_nat (length (drop 16 pkt))) with p
    by (unfold HEADER_SIZE; lia).
  rewrite Hck, <- Hhdr, take_drop; reflexivity.
Qed.

Lemma accepted_packet_rebuilds_witness :
  makepacket 1 0x40934A0000000000
    (drop 16
       [163; 157; 122; 1; 0; 18; 0; 205; 64; 147; 74; 0; 0; 0; 0; 0; 65; 66])
  = Ok [163; 157; 122; 1; 0; 18; 0; 205; 64; 147; 74; 0; 0; 0; 0; 0; 65; 66].
Proof.
  apply (accepted_packet_rebuilds _
           (mkReceivedPacket
              [163; 157; 122; 1; 0; 18; 0; 0; 64; 147; 74; 0; 0; 0; 0; 0]
              1 18 205 0x40934A0000000000 2 (Some [65; 66]))).
  - repeat constructor; unfold is_byte; lia.
  - vm_compute; reflexivity.
  - reflexivity.
Defined.

End ReceiverProperties.

End Packet.
